(** * CGPricing: the pricing recommendation engine of [src/ml_engine.py]

    A shallow embedding of the rule cascade, the blending step, the smart
    tags and the engine singleton, with the properties of the written
    specification stated and proved about them.

    Numbers.  The Python code computes with binary floating point.  Here a
    [float] is idealised as an exact rational ([Q]): every operation is the
    exact one, comparison is the order of [Q], and [round(x, n)] rounds the
    exact value half-to-even at [n] decimals.  Division keeps its one
    Python effect: dividing by zero raises [ZeroDivisionError].

    Strings.  A [str] is a [string] of bytes; [lower] maps the ASCII
    capitals and leaves every other byte alone (no non-ASCII character
    lower-cases to one of the keywords compared against below). *)

From Stdlib Require Import QArith Qround Qabs Qminmax ZArith Lia Lqa.
From Stdlib Require Import String Ascii List Bool.
From Stdlib Require Import Sorted.
From Stdlib Require OrderedTypeEx.
Import ListNotations.

Local Open Scope Q_scope.

(** ** Python values and effects *)

Module Py.

(** The exceptions the modelled code can raise. *)
Inductive exn : Type :=
| ZeroDivisionError
| ValueError.

Inductive result (A : Type) : Type :=
| Ok (a : A)
| Raise (e : exn).
Arguments Ok {A} a.
Arguments Raise {A} e.

Definition bind {A B : Type} (c : result A) (k : A -> result B) : result B :=
  match c with
  | Ok a => k a
  | Raise e => Raise e
  end.

Definition map {A B : Type} (f : A -> B) (c : result A) : result B :=
  bind c (fun a => Ok (f a)).

(** [x < y], [x > y] and [x == y] on floats. *)
Definition ltb (x y : Q) : bool := negb (Qle_bool y x).
Definition gtb (x y : Q) : bool := ltb y x.
Definition eqb (x y : Q) : bool := Qeq_bool x y.

(** [max(a, b)]: the first argument unless the second is greater. *)
Definition max (a b : Q) : Q := if gtb b a then b else a.

(** [min(a, b)]: the first argument unless the second is smaller. *)
Definition min (a b : Q) : Q := if ltb b a then b else a.

(** [a / b] on floats. *)
Definition div (a b : Q) : result Q :=
  if eqb b 0 then Raise ZeroDivisionError else Ok (a / b).

(** Nearest integer, ties to the even one. *)
Definition round_half_even (x : Q) : Z :=
  let f := Qfloor x in
  match Qcompare (x - inject_Z f) (1 # 2) with
  | Lt => f
  | Gt => (f + 1)%Z
  | Eq => if Z.even f then f else (f + 1)%Z
  end.

(** [round(x, ndigits)]. *)
Definition round (x : Q) (ndigits : nat) : Q :=
  let scale := inject_Z (10 ^ Z.of_nat ndigits) in
  inject_Z (round_half_even (x * scale)) / scale.

(** [s.lower()] on ASCII. *)
Definition lower_ascii (c : ascii) : ascii :=
  let n := nat_of_ascii c in
  if (65 <=? n)%nat && (n <=? 90)%nat then ascii_of_nat (n + 32) else c.

Fixpoint lower (s : string) : string :=
  match s with
  | EmptyString => EmptyString
  | String c s' => String (lower_ascii c) (lower s')
  end.

(** Truth value of a [str]: the empty string is false. *)
Definition truthy (s : string) : bool :=
  match s with
  | EmptyString => false
  | String _ _ => true
  end.

(** [x in xs] for a list of strings. *)
Definition str_in (x : string) (xs : list string) : bool :=
  existsb (String.eqb x) xs.

(** [d.get(key, default)] on a dict written as its items. *)
Fixpoint dict_get {V : Type} (d : list (string * V)) (key : string) (default : V) : V :=
  match d with
  | [] => default
  | (k, v) :: d' => if String.eqb key k then v else dict_get d' key default
  end.

(** [key in d]. *)
Definition dict_mem {V : Type} (d : list (string * V)) (key : string) : bool :=
  existsb (fun kv => String.eqb key (fst kv)) d.

End Py.

Notation "x <- c ;; k" := (Py.bind c (fun x => k))
  (at level 61, c at next level, right associativity).

Import Py (Ok, Raise, ZeroDivisionError, ValueError).

(** ** Tier configuration *)

Record TierConfig : Type := {
  name : string;
  min_margin_pct : Q;
  change_cap_pct : Q
}.

Definition TIER_CONFIGS : list (string * TierConfig) :=
  [ ("low"%string,
     {| name := "low"; min_margin_pct := 10 # 100; change_cap_pct := 10 # 100 |});
    ("mid"%string,
     {| name := "mid"; min_margin_pct := 15 # 100; change_cap_pct := 5 # 100 |});
    ("high"%string,
     {| name := "high"; min_margin_pct := 20 # 100; change_cap_pct := 7 # 100 |});
    ("premium"%string,
     {| name := "premium"; min_margin_pct := 25 # 100; change_cap_pct := 5 # 100 |}) ].

(** [TIER_CONFIGS["mid"]]. *)
Definition TIER_MID : TierConfig :=
  {| name := "mid"; min_margin_pct := 15 # 100; change_cap_pct := 5 # 100 |}.

(** ** Pricing rules *)

Record PricingRules : Type := {
  max_above_market_pct : Q;
  global_change_cap_pct : Q;
  demand_up_min : Q;
  demand_up_max : Q;
  demand_down_max : Q;
  market_band_low_pct : Q;
  market_band_high_pct : Q;
  match_drop_fraction : Q;
  out_of_stock_bump_min : Q;
  out_of_stock_bump_max : Q;
  busy_season_up_min : Q;
  busy_season_up_max : Q;
  slow_season_down_min : Q;
  slow_season_down_max : Q;
  offpeak_discount_min : Q;
  offpeak_discount_max : Q;
  end_of_month_extra_discount : Q;
  launch_discount : Q;
  growth_increase : Q;
  maturity_adjustment : Q;
  decline_discount : Q
}.

Definition DEFAULT_RULES : PricingRules := {|
  max_above_market_pct := 15 # 100;
  global_change_cap_pct := 7 # 100;
  demand_up_min := 5 # 100;
  demand_up_max := 10 # 100;
  demand_down_max := 10 # 100;
  market_band_low_pct := - (10 # 100);
  market_band_high_pct := 15 # 100;
  match_drop_fraction := 5 # 10;
  out_of_stock_bump_min := 5 # 100;
  out_of_stock_bump_max := 10 # 100;
  busy_season_up_min := 10 # 100;
  busy_season_up_max := 15 # 100;
  slow_season_down_min := 10 # 100;
  slow_season_down_max := 20 # 100;
  offpeak_discount_min := 2 # 100;
  offpeak_discount_max := 3 # 100;
  end_of_month_extra_discount := 5 # 100;
  launch_discount := 10 # 100;
  growth_increase := 5 # 100;
  maturity_adjustment := 0;
  decline_discount := 20 # 100
|}.

(** ** Helper functions *)

Definition _clamp (value low high : Q) : Q :=
  Py.max low (Py.min high value).

Definition _pct_change (old new : Q) : Q :=
  if Py.eqb old 0 then 0 else (new - old) / old.

(** ** Rule-based pricing *)

(** [demand_index] may be [None]; the function tests for it. *)
Definition apply_demand_adjustment (price : Q) (demand_index : option Q)
    (rules : PricingRules) : Q :=
  match demand_index with
  | None => price
  | Some demand_index =>
      if Py.gtb demand_index 1 then
        let intensity := _clamp (demand_index - 1) 0 1 in
        let uplift_pct :=
          demand_up_min rules
          + intensity * (demand_up_max rules - demand_up_min rules) in
        price * (1 + uplift_pct)
      else if Py.ltb demand_index 1 then
        let intensity := _clamp (1 - demand_index) 0 1 in
        let discount_pct := intensity * demand_down_max rules in
        price * (1 - discount_pct)
      else price
  end.

Definition apply_lifecycle_adjustment (price : Q) (lifecycle : string)
    (rules : PricingRules) : Q :=
  if negb (Py.truthy lifecycle) then price
  else
    let lifecycle := Py.lower lifecycle in
    if String.eqb lifecycle "launch" then price * (1 - launch_discount rules)
    else if String.eqb lifecycle "growth" then price * (1 + growth_increase rules)
    else if String.eqb lifecycle "maturity" then price * (1 + maturity_adjustment rules)
    else if String.eqb lifecycle "decline" then price * (1 - decline_discount rules)
    else price.

Definition apply_competition_adjustment (price competitor_avg : Q)
    (market_oos : bool) (rules : PricingRules) : Q :=
  if market_oos then
    let bump := (out_of_stock_bump_min rules + out_of_stock_bump_max rules) / 2 in
    price * (1 + bump)
  else price.

Definition enforce_boundaries (price cost : Q) (tier : string)
    (rules : PricingRules) : Q :=
  let tier_config := Py.dict_get TIER_CONFIGS (Py.lower tier) TIER_MID in
  let min_price := cost * (1 + min_margin_pct tier_config) in
  Py.max price min_price.

Definition calculate_rules_price (base_price cost : Q) (tier lifecycle : string)
    (demand_index : option Q) (competitor_avg : Q) (market_oos : bool) : Q :=
  let rules := DEFAULT_RULES in
  let price := base_price in
  let price := apply_demand_adjustment price demand_index rules in
  let price := apply_lifecycle_adjustment price lifecycle rules in
  let price := apply_competition_adjustment price competitor_avg market_oos rules in
  let price := enforce_boundaries price cost tier rules in
  price.

(** ** Smart tags *)

(** One entry of [TAG_DEFINITIONS]: a dict with the keys emoji, label, color. *)
Record SmartTag : Type := {
  emoji : string;
  label : string;
  color : string
}.

Module SmartTagEngine.

Definition new_arrival : SmartTag :=
  {| emoji := "🆕"; label := "New Arrival"; color := "#10B981" |}.
Definition declining : SmartTag :=
  {| emoji := "📉"; label := "Declining"; color := "#EF4444" |}.
Definition competitor_oos : SmartTag :=
  {| emoji := "🏆"; label := "Competitor Out-of-Stock"; color := "#3B82F6" |}.
Definition high_demand : SmartTag :=
  {| emoji := "🔥"; label := "High Demand"; color := "#F59E0B" |}.
Definition margin_watch : SmartTag :=
  {| emoji := "⚠️"; label := "Margin Watch"; color := "#EF4444" |}.
Definition price_leader : SmartTag :=
  {| emoji := "👑"; label := "Price Leader"; color := "#C4437C" |}.

Definition TAG_DEFINITIONS : list (string * SmartTag) :=
  [ ("new_arrival"%string, new_arrival);
    ("declining"%string, declining);
    ("competitor_oos"%string, competitor_oos);
    ("high_demand"%string, high_demand);
    ("margin_watch"%string, margin_watch);
    ("price_leader"%string, price_leader) ].

(** [tags.append(x)] is written [tags ++ [x]]. *)
Definition generate_tags (lifecycle : string)
    (demand_index margin_pct our_price competitor_avg : Q)
    (tier : string) (market_oos : bool) : list SmartTag :=
  let tags : list SmartTag := [] in
  let tags :=
    if Py.truthy lifecycle && String.eqb (Py.lower lifecycle) "launch"
    then tags ++ [new_arrival]
    else if Py.truthy lifecycle && String.eqb (Py.lower lifecycle) "decline"
    then tags ++ [declining]
    else tags in
  let tags := if market_oos then tags ++ [competitor_oos] else tags in
  let tags :=
    if Py.gtb demand_index (12 # 10) then tags ++ [high_demand] else tags in
  let tags :=
    if Py.gtb competitor_avg 0 && Py.ltb our_price (competitor_avg * (95 # 100))
    then tags ++ [price_leader]
    else tags in
  let tier_config := Py.dict_get TIER_CONFIGS (Py.lower tier) TIER_MID in
  let tags :=
    if Py.ltb margin_pct (min_margin_pct tier_config * 100)
    then tags ++ [margin_watch]
    else tags in
  tags.

End SmartTagEngine.

(** ** The adjustment regressor *)

(** [sklearn.preprocessing.LabelEncoder]: [fit] keeps the sorted distinct
    labels, [transform] answers the position of a label among them and
    raises [ValueError] on a label it has not seen. *)
Module LabelEncoder.

Definition t : Type := list string.

Fixpoint insert (x : string) (xs : list string) : list string :=
  match xs with
  | [] => [x]
  | y :: ys =>
      if String.eqb x y then xs
      else if String.ltb x y then x :: xs
      else y :: insert x ys
  end.

Definition fit (labels : list string) : t :=
  fold_right insert [] labels.

Fixpoint position (x : string) (classes : list string) (i : Z) : option Z :=
  match classes with
  | [] => None
  | c :: cs => if String.eqb x c then Some i else position x cs (i + 1)%Z
  end.

Definition transform (classes : t) (x : string) : Py.result Z :=
  match position x classes 0%Z with
  | Some i => Ok i
  | None => Raise ValueError
  end.

End LabelEncoder.

(** The row handed to the regressor, in the order of [feature_cols]. *)
Record Features : Type := {
  x_Base_Price : Q;
  x_tier_encoded : Z;
  x_category_encoded : Z;
  x_lifecycle_encoded : Z;
  x_competitor_avg : Q;
  x_price_vs_competitor : Q;
  x_market_oos : Z;
  x_demand_index : Q
}.

Record Encoders : Type := {
  enc_tier : LabelEncoder.t;
  enc_category : LabelEncoder.t;
  enc_lifecycle : LabelEncoder.t
}.

(** A trained [GradientBoostingPricingModel].  [model] stands for
    [self.model.predict] of the fitted scikit-learn regressor, whose
    internals are outside this repository; an engine trains its model when
    it is constructed, so [is_trained] holds in every call below. *)
Record GradientBoostingPricingModel : Type := {
  model : Features -> Q;
  encoders : Encoders
}.

Definition _create_encoders : Encoders := {|
  enc_tier := LabelEncoder.fit ["Low"; "Mid"; "High"; "Premium"]%string;
  enc_category := LabelEncoder.fit ["Chemicals"; "Equipment"; "Paper"; "Other"]%string;
  enc_lifecycle :=
    LabelEncoder.fit ["Launch"; "Growth"; "Maturity"; "Decline"; "Clearance"]%string
|}.

(** [train()]: the encoders are created and the regressor is fitted on the
    seeded synthetic data; [fitted] stands for the fitted regressor. *)
Definition train (fitted : Features -> Q) : GradientBoostingPricingModel :=
  {| model := fitted; encoders := _create_encoders |}.

(** [try: transform(...) except: default]. *)
Definition encode_or (classes : LabelEncoder.t) (x : string) (default : Z) : Z :=
  match LabelEncoder.transform classes x with
  | Ok i => i
  | Raise _ => default
  end.

Definition predict_adjustment (self : GradientBoostingPricingModel)
    (base_price : Q) (tier category lifecycle : string)
    (competitor_avg : Q) (market_oos : bool) (demand_index : Q) : Q :=
  let tier_enc := encode_or (enc_tier (encoders self)) tier 1 in
  let cat_enc := encode_or (enc_category (encoders self)) category 3 in
  let life_enc := encode_or (enc_lifecycle (encoders self)) lifecycle 2 in
  let price_vs_comp :=
    if Py.gtb competitor_avg 0 then base_price / competitor_avg else 1 in
  let features := {|
    x_Base_Price := base_price;
    x_tier_encoded := tier_enc;
    x_category_encoded := cat_enc;
    x_lifecycle_encoded := life_enc;
    x_competitor_avg := competitor_avg;
    x_price_vs_competitor := price_vs_comp;
    x_market_oos := if market_oos then 1%Z else 0%Z;
    x_demand_index := demand_index
  |} in
  model self features.

(** ** The unified engine *)

(** The attributes of a [PricingEngine] that pricing reads; its
    [feature_importance], a copy of the model's, is display data only. *)
Record PricingEngine : Type := {
  ml_weight : Q;
  ml_model : GradientBoostingPricingModel
}.

Record RuleAdjustments : Type := {
  demand_adj : bool;
  lifecycle_adj : bool;
  market_oos_adj : bool;
  margin_floor_applied : bool
}.

(** The dict [get_recommendation] returns. *)
Record Recommendation : Type := {
  product_name : string;
  recommended_price : Q;
  rules_price : Q;
  ml_price : Q;
  ml_adjustment_pct : Q;
  price_change_pct : Q;
  margin_pct : Q;
  smart_tags : list SmartTag;
  tier : string;
  demand_index : Q;
  competitor_avg : Q;
  rule_adjustments : RuleAdjustments
}.

(** The local variables of [get_recommendation] after its steps 1 to 3. *)
Module Locals.
Record t : Type := {
  rules_price : Q;
  rules_adjustment : Q;
  ml_adjustment : Q;
  ml_price : Q;
  blended_adjustment : Q;
  hybrid_price : Q
}.
End Locals.

(** Steps 1 to 3 of [get_recommendation]: rule price, model price and the
    blended price before the margin floor is enforced again. *)
Definition blend (self : PricingEngine) (base_price cost : Q)
    (tier category lifecycle : string) (competitor_avg : Q)
    (market_oos : bool) (demand_index : Q) : Py.result Locals.t :=
  let rules_price :=
    calculate_rules_price base_price cost tier lifecycle (Some demand_index)
      competitor_avg market_oos in
  rules_adjustment <- Py.div (rules_price - base_price) base_price ;;
  let ml_adjustment :=
    predict_adjustment (ml_model self) base_price tier category lifecycle
      competitor_avg market_oos demand_index in
  let ml_price := base_price * (1 + ml_adjustment) in
  let blended_adjustment :=
    (1 - ml_weight self) * rules_adjustment + ml_weight self * ml_adjustment in
  let hybrid_price := base_price * (1 + blended_adjustment) in
  Ok {| Locals.rules_price := rules_price;
        Locals.rules_adjustment := rules_adjustment;
        Locals.ml_adjustment := ml_adjustment;
        Locals.ml_price := ml_price;
        Locals.blended_adjustment := blended_adjustment;
        Locals.hybrid_price := hybrid_price |}.

(** The arguments are values of their annotated types: [str] for the
    strings, finite [float] for the numbers, [bool] for the flag. *)
Definition get_recommendation (self : PricingEngine) (product_name : string)
    (base_price cost : Q) (tier category lifecycle : string)
    (competitor_avg : Q) (market_oos : bool) (demand_index : Q)
    : Py.result Recommendation :=
  b <- blend self base_price cost tier category lifecycle competitor_avg
         market_oos demand_index ;;
  let tier_config := Py.dict_get TIER_CONFIGS (Py.lower tier) TIER_MID in
  let min_price := cost * (1 + min_margin_pct tier_config) in
  let hybrid_price := Py.max (Locals.hybrid_price b) min_price in
  margin_pct <-
    (if Py.gtb hybrid_price 0
     then m <- Py.div (hybrid_price - cost) hybrid_price ;; Ok (m * 100)
     else Ok 0) ;;
  let smart_tags :=
    SmartTagEngine.generate_tags lifecycle demand_index margin_pct hybrid_price
      competitor_avg tier market_oos in
  let rule_adjustments := {|
    demand_adj := negb (Py.eqb demand_index 1);
    lifecycle_adj :=
      Py.str_in (Py.lower lifecycle) ["launch"; "growth"; "decline"]%string;
    market_oos_adj := market_oos;
    margin_floor_applied := Py.eqb hybrid_price min_price
  |} in
  change <- Py.div (hybrid_price - base_price) base_price ;;
  Ok {| product_name := product_name;
        recommended_price := Py.round hybrid_price 2;
        rules_price := Py.round (Locals.rules_price b) 2;
        ml_price := Py.round (Locals.ml_price b) 2;
        ml_adjustment_pct := Py.round (Locals.ml_adjustment b * 100) 1;
        price_change_pct := Py.round (change * 100) 1;
        margin_pct := Py.round margin_pct 1;
        smart_tags := smart_tags;
        tier := tier;
        demand_index := demand_index;
        competitor_avg := competitor_avg;
        rule_adjustments := rule_adjustments |}.

(** ** The singleton factory *)

(** Engines are objects: a reference is a position in the heap of the
    engines constructed so far, and the module-level variable
    [_engine_instance] holds [None] or such a reference. *)
Record Globals : Type := {
  heap : list PricingEngine;
  _engine_instance : option nat
}.

Section Factory.

(** The regressor that [train(n_samples=2000)] fits: the seed is fixed,
    so every construction trains the same model. *)
Variable fitted : Features -> Q.

(** [PricingEngine(ml_weight=...)]: a new object on the heap. *)
Definition PricingEngine_new (ml_weight : Q) (g : Globals) : nat * Globals :=
  (length (heap g),
   {| heap := heap g ++ [ {| ml_weight := ml_weight; ml_model := train fitted |} ];
      _engine_instance := _engine_instance g |}).

Definition get_pricing_engine (ml_weight : Q) (g : Globals) : nat * Globals :=
  match _engine_instance g with
  | None =>
      let '(e, g') := PricingEngine_new ml_weight g in
      (e, {| heap := heap g'; _engine_instance := Some e |})
  | Some e => (e, g)
  end.

(** A sequence of calls, the state threaded through; the references
    returned, in call order. *)
Fixpoint get_pricing_engine_calls (weights : list Q) (g : Globals)
    : list nat * Globals :=
  match weights with
  | [] => ([], g)
  | w :: ws =>
      let '(e, g1) := get_pricing_engine w g in
      let '(es, g2) := get_pricing_engine_calls ws g1 in
      (e :: es, g2)
  end.

End Factory.

(** The object a reference points to. *)
Definition deref (g : Globals) (e : nat) : option PricingEngine :=
  nth_error (heap g) e.

(** ** The specification's vocabulary *)

(** The tier configuration a tier string resolves to: the lookup
    [TIER_CONFIGS.get(tier.lower(), TIER_CONFIGS["mid"])] that
    [enforce_boundaries], [get_recommendation] and [generate_tags] perform. *)
Definition tier_config_of (tier : string) : TierConfig :=
  Py.dict_get TIER_CONFIGS (Py.lower tier) TIER_MID.

(** [cost × (1 + tier.min_margin_pct)]. *)
Definition margin_floor (cost : Q) (tier : string) : Q :=
  cost * (1 + min_margin_pct (tier_config_of tier)).

(** A tier string is known when, lower-cased, it is a key of [TIER_CONFIGS]. *)
Definition known_tier (tier : string) : bool :=
  Py.dict_mem TIER_CONFIGS (Py.lower tier).

(** The multiplier of each stage of the rule cascade, following the
    specification's words: demand uplift or discount, lifecycle
    adjustment, out-of-stock bump. *)
Definition demand_multiplier (demand_index : option Q) (rules : PricingRules) : Q :=
  match demand_index with
  | None => 1
  | Some d =>
      if Py.gtb d 1 then
        1 + (demand_up_min rules
             + _clamp (d - 1) 0 1 * (demand_up_max rules - demand_up_min rules))
      else if Py.ltb d 1 then
        1 - _clamp (1 - d) 0 1 * demand_down_max rules
      else 1
  end.

Definition lifecycle_multiplier (lifecycle : string) (rules : PricingRules) : Q :=
  let stage := Py.lower lifecycle in
  if String.eqb stage "launch" then 1 - launch_discount rules
  else if String.eqb stage "growth" then 1 + growth_increase rules
  else if String.eqb stage "maturity" then 1 + maturity_adjustment rules
  else if String.eqb stage "decline" then 1 - decline_discount rules
  else 1.

Definition competition_multiplier (market_oos : bool) (rules : PricingRules) : Q :=
  if market_oos
  then 1 + (out_of_stock_bump_min rules + out_of_stock_bump_max rules) / 2
  else 1.

(** A recommendation with its echoed [tier] entry replaced. *)
Definition with_tier (tier' : string) (r : Recommendation) : Recommendation :=
  {| product_name := product_name r;
     recommended_price := recommended_price r;
     rules_price := rules_price r;
     ml_price := ml_price r;
     ml_adjustment_pct := ml_adjustment_pct r;
     price_change_pct := price_change_pct r;
     margin_pct := margin_pct r;
     smart_tags := smart_tags r;
     tier := tier';
     demand_index := demand_index r;
     competitor_avg := competitor_avg r;
     rule_adjustments := rule_adjustments r |}.

(** Engines for concrete runs: the regressor predicts the same adjustment
    [a] for every row. *)
Definition constant_engine (ml_weight a : Q) : PricingEngine :=
  {| ml_weight := ml_weight; ml_model := train (fun _ => a) |}.

(** The module right after import: no engine constructed yet. *)
Definition initial_globals : Globals :=
  {| heap := []; _engine_instance := None |}.

(** ** Further Python and pandas operations *)

Module PyNum.

(** [x <= y], [x >= y] and [abs(x)] on floats. *)
Definition leb (x y : Q) : bool := Qle_bool x y.
Definition geb (x y : Q) : bool := Qle_bool y x.
Definition abs (x : Q) : Q := Qabs x.

(** [Series.clip(lower, upper)] on one value, for [lower <= upper]. *)
Definition clip (x lower upper : Q) : Q :=
  if Py.ltb x lower then lower else if Py.gtb x upper then upper else x.

(** [Series.max()] of a column; [None] stands for the NaN of an empty one. *)
Definition series_max (xs : list Q) : option Q :=
  match xs with
  | [] => None
  | x :: xs' => Some (fold_left Py.max xs' x)
  end.

End PyNum.

(** ** The approvals feed ([tabs/approvals.py]) *)

Module Approvals.

(** A row of the product table.  A column the table lacks is [None]:
    [row["c"]] then raises [KeyError] and [row.get("c", d)] answers [d]. *)
Record Row : Type := {
  SKU : option string;
  Product_Name : option string;
  Base_Price : option Q;
  cost : option Q;
  competitor_avg : option Q;
  demand_index : option Q;
  market_out_of_stock : option bool;
  Tier : option string;
  Category : option string;
  Product_Lifecycle : option string
}.

(** One entry of the list the recommendations frame is built from. *)
Record Entry : Type := {
  ID : string;
  Product : string;
  Category_ : string;
  Tier_ : string;
  Current_Price : Q;
  New_Price : Q;
  Change_Percent : Q;
  Margin_Percent : Q;
  Competitor_Avg : Q;
  Demand_Index : Q;
  Required_Approval : string;
  Status : string;
  Suggested_Date : string;
  Confidence : string
}.

(** The sign-off level a change percentage requires: the [if]/[elif] chain
    of the loop body. *)
Definition approval_level (change_pct : Q) : string :=
  let abs_change := PyNum.abs change_pct in
  if PyNum.leb abs_change 3 then "Auto-Approved"
  else if PyNum.leb abs_change 7 then "Manager"
  else if PyNum.leb abs_change 15 then "Director"
  else "Executive".

(** [row.get(key, default)]. *)
Definition get {A : Type} (cell : option A) (default : A) : A :=
  match cell with
  | Some v => v
  | None => default
  end.

(** The body of the loop over the rows: [Some] entry appended, or [None]
    when anything raised and the bare [except] went on to the next row.
    [today] is [datetime.now().strftime('%Y-%m-%d')]. *)
Definition recommend_row (engine : PricingEngine) (today : string) (row : Row)
    : option Entry :=
  match Base_Price row, Product_Name row, Tier row, SKU row with
  | Some base_price, Some name, Some tier, Some sku =>
      let cost := get (cost row) (base_price * (70 # 100)) in
      let competitor_avg := get (competitor_avg row) base_price in
      let demand_index := get (demand_index row) 1 in
      let market_oos := get (market_out_of_stock row) false in
      match
        get_recommendation engine name base_price cost tier
          (get (Category row) "Other"%string)
          (get (Product_Lifecycle row) "Maturity"%string)
          competitor_avg market_oos demand_index
      with
      | Ok rec =>
          let change_pct := price_change_pct rec in
          Some {| ID := sku;
                  Product := product_name rec;
                  Category_ := get (Category row) "Other"%string;
                  Tier_ := tier;
                  Current_Price := base_price;
                  New_Price := recommended_price rec;
                  Change_Percent := change_pct;
                  Margin_Percent := margin_pct rec;
                  Competitor_Avg := competitor_avg;
                  Demand_Index := demand_index;
                  Required_Approval := approval_level change_pct;
                  Status := "Pending";
                  Suggested_Date := today;
                  Confidence := "Medium" |}
      | Raise _ => None
      end
  | _, _, _, _ => None
  end.

(** [get_ml_recommendations]: the rows of [get_product_data()] in, the
    entries of the returned frame out.  [fitted] is the regressor the new
    engine trains. *)
Fixpoint recommend_rows (engine : PricingEngine) (today : string) (rows : list Row)
    : list Entry :=
  match rows with
  | [] => []
  | row :: rows' =>
      match recommend_row engine today row with
      | Some entry => entry :: recommend_rows engine today rows'
      | None => recommend_rows engine today rows'
      end
  end.

Definition get_ml_recommendations (fitted : Features -> Q) (today : string)
    (rows : list Row) (ml_weight : Q) : list Entry :=
  let engine := {| ml_weight := ml_weight; ml_model := train fitted |} in
  recommend_rows engine today rows.

End Approvals.

(** ** Demand index from orders ([data_loader.py]) *)

Module DataLoader.

(** An order line: its SKU and its Quantity, [None] for a missing (NaN)
    quantity. *)
Definition Order : Type := (string * option Q)%type.

(** [fillna(0)]. *)
Definition fillna (q : option Q) : Q :=
  match q with
  | Some v => v
  | None => 0
  end.

(** One more line added to the per-SKU totals, kept in key order as
    [groupby("SKU")] presents them. *)
Fixpoint add_quantity (sku : string) (q : Q) (totals : list (string * Q))
    : list (string * Q) :=
  match totals with
  | [] => [(sku, q)]
  | (k, t) :: rest =>
      if String.eqb sku k then (k, t + q) :: rest
      else if String.ltb sku k then (sku, q) :: totals
      else (k, t) :: add_quantity sku q rest
  end.

(** [df.groupby("SKU")["quantity"].sum().reset_index()]. *)
Definition groupby_sum (orders : list Order) : list (string * Q) :=
  fold_left (fun totals o => add_quantity (fst o) (fillna (snd o)) totals) orders [].

Definition compute_demand_index (orders_df : list Order) (min_index max_index : Q)
    : list (string * Q) :=
  match orders_df with
  | [] => []
  | _ :: _ =>
      let demand := groupby_sum orders_df in
      match PyNum.series_max (List.map snd demand) with
      | Some m =>
          if Py.gtb m 0 then
            List.map
              (fun kt => (fst kt, PyNum.clip ((1 # 2) + snd kt / m) min_index max_index))
              demand
          else List.map (fun kt => (fst kt, 1)) demand
      | None => List.map (fun kt => (fst kt, 1)) demand
      end
  end.

End DataLoader.

(** ** Elasticity ([elasticity_analysis.py]) *)

Module ElasticityAnalyzer.

Definition calculate_elasticity (price_old price_new quantity_old quantity_new : Q)
    : Py.result Q :=
  if Py.eqb price_old 0 || Py.eqb quantity_old 0 then Ok 0
  else
    pct_price_change <- Py.div (price_new - price_old) price_old ;;
    pct_quantity_change <- Py.div (quantity_new - quantity_old) quantity_old ;;
    if Py.eqb pct_price_change 0 then Ok 0
    else
      elasticity <- Py.div pct_quantity_change pct_price_change ;;
      Ok elasticity.

(** The demand segment [_create_segments] gives a product. *)
Definition segment_demand (x : Q) : string :=
  if Py.gtb x (12 # 10) then "High Demand Customers"
  else if Py.ltb x (8 # 10) then "Low Demand Customers"
  else "Normal Demand Customers".

End ElasticityAnalyzer.

(** ** Vocabulary of the further properties *)

(** The rank of a sign-off level, lowest first. *)
Definition level_rank (level : string) : nat :=
  if String.eqb level "Auto-Approved" then 0
  else if String.eqb level "Manager" then 1
  else if String.eqb level "Director" then 2
  else 3.

(** The price [get_recommendation] ends with before rounding (its step 4)
    and the margin percentage of its step 5. *)
Definition final_price (b : Locals.t) (cost : Q) (tier : string) : Q :=
  Py.max (Locals.hybrid_price b) (margin_floor cost tier).

Definition final_margin (hybrid_price cost : Q) : Q :=
  if Py.gtb hybrid_price 0 then (hybrid_price - cost) / hybrid_price * 100 else 0.

(** A row the approvals feed can turn into an entry: the four columns it
    indexes are there and the base price is not zero. *)
Definition usable_row (row : Approvals.Row) : bool :=
  match Approvals.Base_Price row, Approvals.Product_Name row,
        Approvals.Tier row, Approvals.SKU row with
  | Some base_price, Some _, Some _, Some _ => negb (Py.eqb base_price 0)
  | _, _, _, _ => false
  end.

Definition row_sku (row : Approvals.Row) : string :=
  Approvals.get (Approvals.SKU row) EmptyString.

(** The order [groupby] presents SKUs in. *)
Definition sku_lt (a b : string) : Prop := String.ltb a b = true.

(** A best seller: a SKU whose total quantity no other total exceeds. *)
Definition best_seller (totals : list (string * Q)) (sku : string) (t : Q) : Prop :=
  In (sku, t) totals /\ forall sku' t', In (sku', t') totals -> t' <= t.

(** * Properties *)

(** ** Comparisons, [max], [min] and rounding *)

Lemma ltb_true (x y : Q) : Py.ltb x y = true <-> x < y.
Proof.
  unfold Py.ltb. rewrite negb_true_iff.
  split; intro H.
  - apply Qnot_le_lt. intro Hle. apply Qle_bool_iff in Hle. congruence.
  - destruct (Qle_bool y x) eqn:E; [|reflexivity].
    apply Qle_bool_iff in E. exfalso. apply (Qlt_not_le _ _ H E).
Qed.

Lemma ltb_false (x y : Q) : Py.ltb x y = false <-> y <= x.
Proof.
  unfold Py.ltb. rewrite negb_false_iff. apply Qle_bool_iff.
Qed.

Lemma eqb_true (x y : Q) : Py.eqb x y = true <-> x == y.
Proof. apply Qeq_bool_iff. Qed.

Lemma eqb_false (x y : Q) : Py.eqb x y = false <-> ~ x == y.
Proof.
  unfold Py.eqb. split; intro H.
  - now apply Qeq_bool_neq.
  - destruct (Qeq_bool x y) eqn:E; [|reflexivity].
    apply Qeq_bool_iff in E. contradiction.
Qed.

(** Case analysis on one Python comparison, leaving its meaning in the
    context for [lra]. *)
Ltac py_case x y :=
  let E := fresh "C" in
  destruct (Py.ltb x y) eqn:E;
  [ apply ltb_true in E | apply ltb_false in E ].

Ltac py_cases :=
  unfold Py.max, Py.min, Py.gtb in *;
  repeat match goal with
         | |- context [Py.ltb ?x ?y] =>
             lazymatch x with context [Py.ltb _ _] => fail | _ => idtac end;
             lazymatch y with context [Py.ltb _ _] => fail | _ => idtac end;
             py_case x y
         end.

Lemma max_ge_l (a b : Q) : a <= Py.max a b.
Proof. py_cases; lra. Qed.

Lemma max_ge_r (a b : Q) : b <= Py.max a b.
Proof. py_cases; lra. Qed.

Lemma max_mono_l (a a' b : Q) : a <= a' -> Py.max a b <= Py.max a' b.
Proof. intro H. py_cases; lra. Qed.

Lemma max_is_Qmax (a b : Q) : Py.max a b == Qmax a b.
Proof.
  py_cases.
  - symmetry. apply Q.max_r. lra.
  - symmetry. apply Q.max_l. lra.
Qed.

Lemma clamp_bounds (v lo hi : Q) : lo <= hi -> lo <= _clamp v lo hi <= hi.
Proof. intro H. unfold _clamp. py_cases; lra. Qed.

Lemma clamp_mono (v v' lo hi : Q) :
  v <= v' -> _clamp v lo hi <= _clamp v' lo hi.
Proof. intro H. unfold _clamp. py_cases; lra. Qed.

(** The meaning of an outcome of [Qcompare]. *)
Ltac q_compare E :=
  lazymatch type of E with
  | _ = Eq => apply Qeq_alt in E
  | _ = Lt => apply Qlt_alt in E
  | _ = Gt => apply Qgt_alt in E
  end.

(** Rounding to the nearest integer misses by at most one half. *)
Lemma round_half_even_error (x : Q) :
  x - (1 # 2) <= inject_Z (Py.round_half_even x) <= x + (1 # 2).
Proof.
  unfold Py.round_half_even.
  pose proof (Qfloor_le x) as Hlo.
  pose proof (Qlt_floor x) as Hhi.
  rewrite inject_Z_plus in Hhi.
  change (inject_Z 1) with 1 in Hhi.
  destruct (Qcompare (x - inject_Z (Qfloor x)) (1 # 2)) eqn:E; q_compare E.
  - destruct (Z.even (Qfloor x));
      rewrite ?inject_Z_plus; change (inject_Z 1) with 1; lra.
  - lra.
  - rewrite inject_Z_plus. change (inject_Z 1) with 1. lra.
Qed.

Lemma scale_pos (n : nat) : 0 < inject_Z (10 ^ Z.of_nat n).
Proof.
  change 0 with (inject_Z 0). rewrite <- Zlt_Qlt.
  apply Z.pow_pos_nonneg; lia.
Qed.

(** Rounding to the nearest integer keeps the order. *)
Lemma round_half_even_mono (x y : Q) :
  x <= y -> (Py.round_half_even x <= Py.round_half_even y)%Z.
Proof.
  intro H. unfold Py.round_half_even.
  pose proof (Qfloor_resp_le x y H) as Hf.
  destruct (Z.eq_dec (Qfloor x) (Qfloor y)) as [Heq|Hne].
  - rewrite <- Heq.
    destruct (Qcompare (x - inject_Z (Qfloor x)) (1 # 2)) eqn:Ex;
      destruct (Qcompare (y - inject_Z (Qfloor x)) (1 # 2)) eqn:Ey;
      q_compare Ex; q_compare Ey;
      try (exfalso; lra);
      destruct (Z.even (Qfloor x)); lia.
  - destruct (Qcompare (x - inject_Z (Qfloor x)) (1 # 2));
      destruct (Qcompare (y - inject_Z (Qfloor y)) (1 # 2));
      destruct (Z.even (Qfloor x)); destruct (Z.even (Qfloor y)); lia.
Qed.

(** [round(x, n)] keeps the order. *)
Lemma round_mono (x y : Q) (n : nat) : x <= y -> Py.round x n <= Py.round y n.
Proof.
  intro H. unfold Py.round.
  pose proof (scale_pos n) as Hs.
  set (s := inject_Z (10 ^ Z.of_nat n)) in *.
  apply Qmult_le_compat_r.
  - rewrite <- Zle_Qle. apply round_half_even_mono.
    apply Qmult_le_compat_r; [exact H|apply Qlt_le_weak, Hs].
  - apply Qlt_le_weak, Qinv_lt_0_compat, Hs.
Qed.

(** [round(x, 2)] misses [x] by at most half a cent. *)
Lemma round_2_error (x : Q) :
  x - (1 # 200) <= Py.round x 2 <= x + (1 # 200).
Proof.
  unfold Py.round.
  change (inject_Z (10 ^ Z.of_nat 2)) with 100.
  pose proof (round_half_even_error (x * 100)) as H.
  set (z := inject_Z (Py.round_half_even (x * 100))) in *.
  split.
  - apply Qle_shift_div_l; lra.
  - apply Qle_shift_div_r; lra.
Qed.

(** [round(x, 1)] misses [x] by at most a twentieth. *)
Lemma round_1_error (x : Q) :
  x - (1 # 20) <= Py.round x 1 <= x + (1 # 20).
Proof.
  unfold Py.round.
  change (inject_Z (10 ^ Z.of_nat 1)) with 10.
  pose proof (round_half_even_error (x * 10)) as H.
  set (z := inject_Z (Py.round_half_even (x * 10))) in *.
  split.
  - apply Qle_shift_div_l; lra.
  - apply Qle_shift_div_r; lra.
Qed.

(** ** Tier lookup *)

Lemma TIER_MID_entry : In ("mid"%string, TIER_MID) TIER_CONFIGS.
Proof. cbn. auto. Qed.

(** The four configured floors, whatever the case of the tier string. *)
Lemma tier_config_of_table :
  min_margin_pct (tier_config_of "low") = 10 # 100
  /\ min_margin_pct (tier_config_of "Mid") = 15 # 100
  /\ min_margin_pct (tier_config_of "HIGH") = 20 # 100
  /\ min_margin_pct (tier_config_of "premium") = 25 # 100.
Proof. repeat split. Qed.

(** ** The rule cascade *)

Lemma apply_demand_adjustment_multiplies (price : Q) (d : option Q) (rules : PricingRules) :
  apply_demand_adjustment price d rules == price * demand_multiplier d rules.
Proof.
  unfold apply_demand_adjustment, demand_multiplier.
  destruct d as [d|]; [|ring].
  destruct (Py.gtb d 1); [reflexivity|].
  destruct (Py.ltb d 1); [reflexivity|ring].
Qed.

Lemma lower_empty (s : string) : Py.truthy s = false -> Py.lower s = EmptyString.
Proof. destruct s; [reflexivity|discriminate]. Qed.

Lemma apply_lifecycle_adjustment_multiplies (price : Q) (lifecycle : string)
    (rules : PricingRules) :
  apply_lifecycle_adjustment price lifecycle rules
  == price * lifecycle_multiplier lifecycle rules.
Proof.
  unfold apply_lifecycle_adjustment, lifecycle_multiplier.
  destruct (Py.truthy lifecycle) eqn:T; cbn [negb].
  - repeat match goal with
           | |- context [String.eqb ?a ?b] => destruct (String.eqb a b)
           end; try reflexivity; ring.
  - rewrite (lower_empty _ T). cbn. ring.
Qed.

Lemma apply_competition_adjustment_multiplies (price competitor_avg : Q)
    (market_oos : bool) (rules : PricingRules) :
  apply_competition_adjustment price competitor_avg market_oos rules
  == price * competition_multiplier market_oos rules.
Proof.
  unfold apply_competition_adjustment, competition_multiplier.
  destruct market_oos; [reflexivity|ring].
Qed.

Lemma enforce_boundaries_is_max (price cost : Q) (tier : string) (rules : PricingRules) :
  enforce_boundaries price cost tier rules == Qmax price (margin_floor cost tier).
Proof. unfold enforce_boundaries. apply max_is_Qmax. Qed.

(** C8.  With the default rules the competition stage multiplies the running
    price by exactly 1 + 0.075 when the market is out of stock and leaves it
    unchanged otherwise, and the rule calculator enforces the margin floor
    on the outcome of that stage. *)
Theorem out_of_stock_uplift (price competitor_avg : Q) :
  apply_competition_adjustment price competitor_avg true DEFAULT_RULES
  == price * (1 + (75 # 1000))
  /\ apply_competition_adjustment price competitor_avg false DEFAULT_RULES = price
  /\ forall base_price cost tier lifecycle demand_index market_oos,
       calculate_rules_price base_price cost tier lifecycle demand_index
         competitor_avg market_oos
       = enforce_boundaries
           (apply_competition_adjustment
              (apply_lifecycle_adjustment
                 (apply_demand_adjustment base_price demand_index DEFAULT_RULES)
                 lifecycle DEFAULT_RULES)
              competitor_avg market_oos DEFAULT_RULES)
           cost tier DEFAULT_RULES.
Proof.
  split; [|split].
  - unfold apply_competition_adjustment, DEFAULT_RULES; cbn. field.
  - reflexivity.
  - reflexivity.
Qed.

(** C4.  The rule price is the base price taken through four stages in the
    order demand, lifecycle, competition, margin floor: each of the first
    three multiplies the running price by its own multiplier, and the last
    takes the maximum of the running price and cost × (1 + min_margin_pct). *)
Theorem calculate_rules_price_pipeline (base_price cost : Q) (tier lifecycle : string)
    (demand_index : option Q) (competitor_avg : Q) (market_oos : bool) :
  let rules := DEFAULT_RULES in
  let p1 := apply_demand_adjustment base_price demand_index rules in
  let p2 := apply_lifecycle_adjustment p1 lifecycle rules in
  let p3 := apply_competition_adjustment p2 competitor_avg market_oos rules in
  let p4 := enforce_boundaries p3 cost tier rules in
  calculate_rules_price base_price cost tier lifecycle demand_index
    competitor_avg market_oos = p4
  /\ p1 == base_price * demand_multiplier demand_index rules
  /\ p2 == p1 * lifecycle_multiplier lifecycle rules
  /\ p3 == p2 * competition_multiplier market_oos rules
  /\ p4 == Qmax p3 (margin_floor cost tier)
  /\ p4 == Qmax (base_price * demand_multiplier demand_index rules
                 * lifecycle_multiplier lifecycle rules
                 * competition_multiplier market_oos rules)
               (margin_floor cost tier).
Proof.
  intros rules p1 p2 p3 p4.
  assert (H1 : p1 == base_price * demand_multiplier demand_index rules)
    by apply apply_demand_adjustment_multiplies.
  assert (H2 : p2 == p1 * lifecycle_multiplier lifecycle rules)
    by apply apply_lifecycle_adjustment_multiplies.
  assert (H3 : p3 == p2 * competition_multiplier market_oos rules)
    by apply apply_competition_adjustment_multiplies.
  assert (H4 : p4 == Qmax p3 (margin_floor cost tier))
    by apply enforce_boundaries_is_max.
  repeat split; try assumption; try reflexivity.
  rewrite H4, H3, H2, H1. reflexivity.
Qed.

(** ** Demand monotonicity *)

Lemma demand_multiplier_mono (d1 d2 : Q) :
  d1 <= d2 ->
  demand_multiplier (Some d1) DEFAULT_RULES <= demand_multiplier (Some d2) DEFAULT_RULES.
Proof.
  intro H. unfold demand_multiplier, DEFAULT_RULES.
  cbn [demand_up_min demand_up_max demand_down_max].
  pose proof (clamp_bounds (d1 - 1) 0 1) as B1.
  pose proof (clamp_bounds (d2 - 1) 0 1) as B2.
  pose proof (clamp_bounds (1 - d1) 0 1) as B3.
  pose proof (clamp_bounds (1 - d2) 0 1) as B4.
  pose proof (clamp_mono (d1 - 1) (d2 - 1) 0 1) as M1.
  pose proof (clamp_mono (1 - d2) (1 - d1) 0 1) as M2.
  set (u1 := _clamp (d1 - 1) 0 1) in *.
  set (u2 := _clamp (d2 - 1) 0 1) in *.
  set (v1 := _clamp (1 - d1) 0 1) in *.
  set (v2 := _clamp (1 - d2) 0 1) in *.
  unfold Py.gtb. py_cases; lra.
Qed.

Lemma lifecycle_multiplier_nonneg (lifecycle : string) :
  0 <= lifecycle_multiplier lifecycle DEFAULT_RULES.
Proof.
  unfold lifecycle_multiplier, DEFAULT_RULES.
  cbn [launch_discount growth_increase maturity_adjustment decline_discount].
  repeat match goal with
         | |- context [String.eqb ?a ?b] => destruct (String.eqb a b)
         end; lra.
Qed.

Lemma competition_multiplier_nonneg (market_oos : bool) :
  0 <= competition_multiplier market_oos DEFAULT_RULES.
Proof.
  unfold competition_multiplier, DEFAULT_RULES.
  cbn [out_of_stock_bump_min out_of_stock_bump_max].
  destruct market_oos; [|lra].
  apply Qle_trans with (y := 1); [lra|].
  setoid_replace (1 + ((5 # 100) + (10 # 100)) / 2) with (1075 # 1000) by field.
  lra.
Qed.

(** The three multiplicative stages never reverse the order of two running
    prices. *)
Lemma stages_mono (p p' : Q) (lifecycle : string) (competitor_avg : Q)
    (market_oos : bool) :
  p <= p' ->
  apply_competition_adjustment
    (apply_lifecycle_adjustment p lifecycle DEFAULT_RULES)
    competitor_avg market_oos DEFAULT_RULES
  <= apply_competition_adjustment
       (apply_lifecycle_adjustment p' lifecycle DEFAULT_RULES)
       competitor_avg market_oos DEFAULT_RULES.
Proof.
  intro H.
  rewrite !apply_competition_adjustment_multiplies.
  apply Qmult_le_compat_r; [|apply competition_multiplier_nonneg].
  rewrite !apply_lifecycle_adjustment_multiplies.
  apply Qmult_le_compat_r; [assumption|apply lifecycle_multiplier_nonneg].
Qed.

(** C5, as the code has it.  For a base price that is not negative the rule
    price never decreases when the demand index increases, over the whole
    range of the demand index (below 1.0 as well as above). *)
Theorem rules_price_nondecreasing_in_demand (base_price cost : Q) (tier lifecycle : string)
    (competitor_avg : Q) (market_oos : bool) (d1 d2 : Q) :
  0 <= base_price ->
  d1 <= d2 ->
  calculate_rules_price base_price cost tier lifecycle (Some d1)
    competitor_avg market_oos
  <= calculate_rules_price base_price cost tier lifecycle (Some d2)
       competitor_avg market_oos.
Proof.
  intros Hb Hd. unfold calculate_rules_price, enforce_boundaries.
  apply max_mono_l, stages_mono.
  rewrite !apply_demand_adjustment_multiplies.
  rewrite !(Qmult_comm base_price).
  apply Qmult_le_compat_r; [|assumption].
  now apply demand_multiplier_mono.
Qed.

Lemma rules_price_nondecreasing_in_demand_witness :
  0 <= 10
  /\ (1 # 2) <= (3 # 2)
  /\ calculate_rules_price 10 7 "mid" "maturity" (Some (1 # 2)) 10 false
     <= calculate_rules_price 10 7 "mid" "maturity" (Some (3 # 2)) 10 false.
Proof.
  assert (Hb : 0 <= 10) by discriminate.
  assert (Hd : (1 # 2) <= (3 # 2)) by discriminate.
  split; [exact Hb|]. split; [exact Hd|].
  exact (rules_price_nondecreasing_in_demand 10 7 "mid" "maturity" 10 false
           (1 # 2) (3 # 2) Hb Hd).
Defined.

(** C5, as the specification words it, fails twice.  Below 1.0 a larger
    demand index gives a larger rule price, not a smaller one (9.50 at 0.5,
    10.00 at 1.0); and for a negative base price the rule price falls as
    the demand index rises above 1.0 (-10 at 1.0, -11 at 2.0). *)
Lemma demand_monotonicity_counterexample :
  ~ (forall base_price cost tier lifecycle competitor_avg market_oos d1 d2,
        (1 <= d1 -> d1 <= d2 ->
         calculate_rules_price base_price cost tier lifecycle (Some d1)
           competitor_avg market_oos
         <= calculate_rules_price base_price cost tier lifecycle (Some d2)
              competitor_avg market_oos)
        /\ (d1 <= d2 -> d2 <= 1 ->
            calculate_rules_price base_price cost tier lifecycle (Some d2)
              competitor_avg market_oos
            <= calculate_rules_price base_price cost tier lifecycle (Some d1)
                 competitor_avg market_oos))
  /\ calculate_rules_price 10 1 "mid" "maturity" (Some (1 # 2)) 10 false
     < calculate_rules_price 10 1 "mid" "maturity" (Some 1) 10 false
  /\ calculate_rules_price (-10) (-100) "mid" "maturity" (Some 2) 10 false
     < calculate_rules_price (-10) (-100) "mid" "maturity" (Some 1) 10 false.
Proof.
  split; [|split].
  - intro H.
    destruct (H 10 1 "mid"%string "maturity"%string 10 false (1 # 2) 1) as [_ H2].
    assert (F : (1 # 2) <= 1 -> 1 <= 1 -> False).
    { intros A B. specialize (H2 A B). vm_compute in H2. apply H2. reflexivity. }
    apply F; lra.
  - vm_compute. reflexivity.
  - vm_compute. reflexivity.
Qed.

(** ** The recommendation *)

Lemma div_ok (a b : Q) : ~ b == 0 -> Py.div a b = Ok (a / b).
Proof. intro H. unfold Py.div. apply eqb_false in H. now rewrite H. Qed.

Lemma div_zero (a b : Q) : b == 0 -> Py.div a b = Raise ZeroDivisionError.
Proof. intro H. unfold Py.div. apply eqb_true in H. now rewrite H. Qed.

(** Steps 1 to 3 return whenever the base price is not zero. *)
Lemma blend_ok (self : PricingEngine) (base_price cost : Q)
    (tier category lifecycle : string) (competitor_avg : Q)
    (market_oos : bool) (demand_index : Q) :
  ~ base_price == 0 ->
  exists b,
    blend self base_price cost tier category lifecycle competitor_avg
      market_oos demand_index = Ok b
    /\ Locals.rules_price b
       = calculate_rules_price base_price cost tier lifecycle (Some demand_index)
           competitor_avg market_oos
    /\ Locals.rules_adjustment b = (Locals.rules_price b - base_price) / base_price
    /\ Locals.ml_adjustment b
       = predict_adjustment (ml_model self) base_price tier category lifecycle
           competitor_avg market_oos demand_index
    /\ Locals.ml_price b = base_price * (1 + Locals.ml_adjustment b)
    /\ Locals.blended_adjustment b
       = (1 - ml_weight self) * Locals.rules_adjustment b
         + ml_weight self * Locals.ml_adjustment b
    /\ Locals.hybrid_price b = base_price * (1 + Locals.blended_adjustment b).
Proof.
  intro Hb. unfold blend. rewrite (div_ok _ _ Hb). cbn [Py.bind].
  eexists. split; [reflexivity|]. cbn. repeat split.
Qed.

(** The whole call returns whenever the base price is not zero; its price
    fields are roundings of the floor-enforced blended price. *)
Lemma get_recommendation_ok (self : PricingEngine) (product_name : string)
    (base_price cost : Q) (tier category lifecycle : string)
    (competitor_avg : Q) (market_oos : bool) (demand_index : Q) (b : Locals.t) :
  ~ base_price == 0 ->
  blend self base_price cost tier category lifecycle competitor_avg
    market_oos demand_index = Ok b ->
  exists r,
    get_recommendation self product_name base_price cost tier category lifecycle
      competitor_avg market_oos demand_index = Ok r
    /\ recommended_price r
       = Py.round (Py.max (Locals.hybrid_price b) (margin_floor cost tier)) 2
    /\ price_change_pct r
       = Py.round
           ((Py.max (Locals.hybrid_price b) (margin_floor cost tier) - base_price)
            / base_price * 100) 1.
Proof.
  intros Hb Hblend. unfold get_recommendation. rewrite Hblend. cbn [Py.bind].
  fold (tier_config_of tier). fold (margin_floor cost tier).
  set (h := Py.max (Locals.hybrid_price b) (margin_floor cost tier)).
  destruct (Py.gtb h 0) eqn:G.
  - assert (Hh : ~ h == 0).
    { unfold Py.gtb in G. apply ltb_true in G. lra. }
    rewrite (div_ok _ _ Hh). cbn [Py.bind]. rewrite (div_ok _ _ Hb). cbn [Py.bind].
    eexists. split; [reflexivity|]. split; reflexivity.
  - cbn [Py.bind]. rewrite (div_ok _ _ Hb). cbn [Py.bind].
    eexists. split; [reflexivity|]. split; reflexivity.
Qed.

(** A zero base price makes the first division raise. *)
Lemma get_recommendation_zero_base (self : PricingEngine) (product_name : string)
    (base_price cost : Q) (tier category lifecycle : string)
    (competitor_avg : Q) (market_oos : bool) (demand_index : Q) :
  base_price == 0 ->
  get_recommendation self product_name base_price cost tier category lifecycle
    competitor_avg market_oos demand_index = Raise ZeroDivisionError.
Proof.
  intro Hb. unfold get_recommendation, blend. now rewrite (div_zero _ _ Hb).
Qed.

(** C1, as the code has it.  Whenever the base price is not zero the call
    returns; the blended price after step 4 is at least
    cost × (1 + min_margin_pct) of the resolved tier, and the returned
    recommended_price is that price rounded to two decimals, so it is at
    least the floor rounded to two decimals and falls short of the floor
    itself by at most half a cent. *)
Theorem recommended_price_margin_floor (self : PricingEngine) (product_name : string)
    (base_price cost : Q) (tier category lifecycle : string)
    (competitor_avg : Q) (market_oos : bool) (demand_index : Q) :
  ~ base_price == 0 ->
  exists b r,
    blend self base_price cost tier category lifecycle competitor_avg
      market_oos demand_index = Ok b
    /\ get_recommendation self product_name base_price cost tier category
         lifecycle competitor_avg market_oos demand_index = Ok r
    /\ margin_floor cost tier
       <= Py.max (Locals.hybrid_price b) (margin_floor cost tier)
    /\ recommended_price r
       = Py.round (Py.max (Locals.hybrid_price b) (margin_floor cost tier)) 2
    /\ Py.round (margin_floor cost tier) 2 <= recommended_price r
    /\ margin_floor cost tier - (1 # 200) <= recommended_price r.
Proof.
  intro Hb.
  destruct (blend_ok self base_price cost tier category lifecycle competitor_avg
              market_oos demand_index Hb) as (b & Hblend & _).
  destruct (get_recommendation_ok self product_name _ _ _ _ _ _ _ _ b Hb Hblend)
    as (r & Hr & Hrec & _).
  exists b, r. repeat split; try assumption.
  - apply max_ge_r.
  - rewrite Hrec. apply round_mono, max_ge_r.
  - rewrite Hrec.
    pose proof (max_ge_r (Locals.hybrid_price b) (margin_floor cost tier)) as Hm.
    pose proof (round_2_error
                  (Py.max (Locals.hybrid_price b) (margin_floor cost tier))) as He.
    lra.
Qed.

Lemma recommended_price_margin_floor_witness :
  ~ 8 == 0
  /\ exists b r,
       blend (constant_engine (1 # 2) (3 # 100)) 8 7 "mid" "Other" "maturity"
         8 false 1 = Ok b
       /\ get_recommendation (constant_engine (1 # 2) (3 # 100)) "p" 8 7 "mid"
            "Other" "maturity" 8 false 1 = Ok r
       /\ margin_floor 7 "mid"
          <= Py.max (Locals.hybrid_price b) (margin_floor 7 "mid")
       /\ recommended_price r
          = Py.round (Py.max (Locals.hybrid_price b) (margin_floor 7 "mid")) 2
       /\ Py.round (margin_floor 7 "mid") 2 <= recommended_price r
       /\ margin_floor 7 "mid" - (1 # 200) <= recommended_price r.
Proof.
  assert (H : ~ 8 == 0) by (intro E; discriminate E).
  split; [exact H|].
  exact (recommended_price_margin_floor (constant_engine (1 # 2) (3 # 100)) "p"
           8 7 "mid" "Other" "maturity" 8 false 1 H).
Defined.

(** C1, as the specification words it, fails: cost 7.001 in tier mid has the
    floor 8.05115, the floor binds, and the returned recommended_price is
    8.05.  (The weight is 0, so the regressor's prediction plays no part.) *)
Lemma margin_floor_counterexample :
  exists r,
    get_recommendation (constant_engine 0 0) "p" 8 (7001 # 1000) "mid" "Other"
      "maturity" 8 false 1 = Ok r
    /\ 0 < 7001 # 1000
    /\ 0 <= ml_weight (constant_engine 0 0) <= 1
    /\ recommended_price r == 805 # 100
    /\ recommended_price r
       < (7001 # 1000) * (1 + min_margin_pct (tier_config_of "mid")).
Proof.
  eexists. split; [vm_compute; reflexivity|].
  cbn [recommended_price ml_weight constant_engine].
  repeat split; vm_compute; try reflexivity; discriminate.
Qed.

(** C2.  With a base price of zero [get_recommendation] does not return:
    the division by the base price of step 1 raises ZeroDivisionError,
    whatever the engine and the other arguments.  The helper
    [_pct_change], which computes the same quotient, answers 0 there. *)
Theorem zero_base_price_raises :
  (forall (self : PricingEngine) (product_name : string) (cost : Q)
          (tier category lifecycle : string) (competitor_avg : Q)
          (market_oos : bool) (demand_index : Q),
      get_recommendation self product_name 0 cost tier category lifecycle
        competitor_avg market_oos demand_index = Raise ZeroDivisionError)
  /\ (forall new : Q, _pct_change 0 new = 0).
Proof.
  split.
  - intros. apply get_recommendation_zero_base. reflexivity.
  - intro new. reflexivity.
Qed.

(** C3.  For a positive base price steps 1 to 3 return, and the blended
    price before the floor is enforced again is the rule price when
    ml_weight is 0 and base_price × (1 + model adjustment) when ml_weight
    is 1. *)
Theorem blend_boundary (self : PricingEngine) (base_price cost : Q)
    (tier category lifecycle : string) (competitor_avg : Q)
    (market_oos : bool) (demand_index : Q) :
  0 < base_price ->
  exists b,
    blend self base_price cost tier category lifecycle competitor_avg
      market_oos demand_index = Ok b
    /\ (ml_weight self == 0 ->
        Locals.hybrid_price b
        == calculate_rules_price base_price cost tier lifecycle (Some demand_index)
             competitor_avg market_oos)
    /\ (ml_weight self == 1 ->
        Locals.hybrid_price b
        == base_price
           * (1 + predict_adjustment (ml_model self) base_price tier category
                    lifecycle competitor_avg market_oos demand_index)).
Proof.
  intro Hpos.
  assert (Hb : ~ base_price == 0) by lra.
  destruct (blend_ok self base_price cost tier category lifecycle competitor_avg
              market_oos demand_index Hb)
    as (b & Hblend & Hrp & Hra & Hma & _ & Hbl & Hh).
  exists b. split; [assumption|].
  rewrite Hh, Hbl, Hra, <- Hma, <- Hrp.
  split; intro Hw; rewrite Hw; field; assumption.
Qed.

Lemma blend_boundary_witness :
  0 < 10
  /\ exists b,
       blend (constant_engine 0 (3 # 100)) 10 7 "mid" "Other" "growth" 10 true
         (12 # 10) = Ok b
       /\ (ml_weight (constant_engine 0 (3 # 100)) == 0 ->
           Locals.hybrid_price b
           == calculate_rules_price 10 7 "mid" "growth" (Some (12 # 10)) 10 true)
       /\ (ml_weight (constant_engine 0 (3 # 100)) == 1 ->
           Locals.hybrid_price b
           == 10 * (1 + predict_adjustment (ml_model (constant_engine 0 (3 # 100)))
                          10 "mid" "Other" "growth" 10 true (12 # 10))).
Proof.
  assert (H : 0 < 10) by reflexivity.
  split; [exact H|].
  exact (blend_boundary (constant_engine 0 (3 # 100)) 10 7 "mid" "Other" "growth"
           10 true (12 # 10) H).
Defined.

(** C7, as the code has it.  For a positive base price, price_change_pct is
    ((h − base) / base) × 100 rounded to one decimal, where h is the
    unrounded final price whose two-decimal rounding is recommended_price;
    so it differs from (recommended_price − base) / base × 100 by at most
    0.05 + 0.5 / base. *)
Theorem price_change_pct_rounded (self : PricingEngine) (product_name : string)
    (base_price cost : Q) (tier category lifecycle : string)
    (competitor_avg : Q) (market_oos : bool) (demand_index : Q) :
  0 < base_price ->
  exists b r,
    blend self base_price cost tier category lifecycle competitor_avg
      market_oos demand_index = Ok b
    /\ get_recommendation self product_name base_price cost tier category
         lifecycle competitor_avg market_oos demand_index = Ok r
    /\ recommended_price r
       = Py.round (Py.max (Locals.hybrid_price b) (margin_floor cost tier)) 2
    /\ price_change_pct r
       = Py.round
           ((Py.max (Locals.hybrid_price b) (margin_floor cost tier) - base_price)
            / base_price * 100) 1
    /\ Qabs (price_change_pct r
             - (recommended_price r - base_price) / base_price * 100)
       <= (1 # 20) + (1 # 2) / base_price.
Proof.
  intro Hpos.
  assert (Hb : ~ base_price == 0) by lra.
  destruct (blend_ok self base_price cost tier category lifecycle competitor_avg
              market_oos demand_index Hb) as (b & Hblend & _).
  destruct (get_recommendation_ok self product_name _ _ _ _ _ _ _ _ b Hb Hblend)
    as (r & Hr & Hrec & Hpct).
  exists b, r. repeat split; try assumption.
  rewrite Hrec, Hpct.
  set (h := Py.max (Locals.hybrid_price b) (margin_floor cost tier)).
  pose proof (round_2_error h) as E2.
  pose proof (round_1_error ((h - base_price) / base_price * 100)) as E1.
  set (rec := Py.round h 2) in *.
  set (X := (h - base_price) / base_price * 100) in *.
  set (P := Py.round X 1) in *.
  pose proof (Qinv_lt_0_compat _ Hpos) as Hi.
  assert (HX : X - (rec - base_price) / base_price * 100
               == (h - rec) * 100 * / base_price).
  { unfold X. field. assumption. }
  assert (Hup : (h - rec) * 100 * / base_price <= (1 # 2) * / base_price).
  { apply Qmult_le_compat_r; lra. }
  assert (Hlo : - (1 # 2) * / base_price <= (h - rec) * 100 * / base_price).
  { apply Qmult_le_compat_r; lra. }
  change ((1 # 2) / base_price) with ((1 # 2) * / base_price).
  set (Y := (rec - base_price) / base_price * 100) in *.
  set (D := (h - rec) * 100 * / base_price) in *.
  set (ib := / base_price) in *.
  apply Qabs_Qle_condition. lra.
Qed.

Lemma price_change_pct_rounded_witness :
  0 < 1000
  /\ exists b r,
       blend (constant_engine (1 # 2) (3 # 100)) 1000 1 "mid" "Other" "growth"
         1000 true 1 = Ok b
       /\ get_recommendation (constant_engine (1 # 2) (3 # 100)) "p" 1000 1 "mid"
            "Other" "growth" 1000 true 1 = Ok r
       /\ recommended_price r
          = Py.round (Py.max (Locals.hybrid_price b) (margin_floor 1 "mid")) 2
       /\ price_change_pct r
          = Py.round
              ((Py.max (Locals.hybrid_price b) (margin_floor 1 "mid") - 1000)
               / 1000 * 100) 1
       /\ Qabs (price_change_pct r - (recommended_price r - 1000) / 1000 * 100)
          <= (1 # 20) + (1 # 2) / 1000.
Proof.
  assert (H : 0 < 1000) by reflexivity.
  split; [exact H|].
  exact (price_change_pct_rounded (constant_engine (1 # 2) (3 # 100)) "p" 1000 1
           "mid" "Other" "growth" 1000 true 1 H).
Defined.

(** C7, as the specification words it, fails: base price 1000 in growth with
    the market out of stock gives recommended_price 1128.75 and
    price_change_pct 12.9, while (1128.75 − 1000) / 1000 × 100 = 12.875. *)
Lemma price_change_pct_counterexample :
  exists r,
    get_recommendation (constant_engine 0 0) "p" 1000 1 "mid" "Other" "growth"
      1000 true 1 = Ok r
    /\ 0 < 1000
    /\ recommended_price r == 112875 # 100
    /\ price_change_pct r == 129 # 10
    /\ ~ price_change_pct r == (recommended_price r - 1000) / 1000 * 100.
Proof.
  eexists. split; [vm_compute; reflexivity|].
  cbn [recommended_price price_change_pct].
  repeat split; vm_compute; try reflexivity; discriminate.
Qed.

(** ** Unknown tiers *)

Lemma dict_get_missing {V : Type} (d : list (string * V)) (key : string) (default : V) :
  Py.dict_mem d key = false -> Py.dict_get d key default = default.
Proof.
  unfold Py.dict_mem.
  induction d as [|[k v] d IH]; cbn [existsb Py.dict_get fst]; intro H.
  - reflexivity.
  - apply orb_false_iff in H. destruct H as [Hk Hd].
    rewrite Hk. now apply IH.
Qed.

Lemma tier_config_of_unknown (tier : string) :
  known_tier tier = false -> tier_config_of tier = tier_config_of "mid".
Proof.
  intro H. unfold tier_config_of. rewrite (dict_get_missing _ _ _ H). reflexivity.
Qed.

(** A tier string the configuration does not know is none of the labels the
    tier encoder was fitted on, so it is encoded by the fallback code, and
    so is the lower-case ["mid"]. *)
Lemma encode_unknown_tier (tier : string) :
  known_tier tier = false ->
  encode_or (enc_tier _create_encoders) tier 1
  = encode_or (enc_tier _create_encoders) "mid" 1.
Proof.
  intro H.
  change (encode_or (enc_tier _create_encoders) "mid" 1) with 1%Z.
  change (enc_tier _create_encoders)
    with ["High"; "Low"; "Mid"; "Premium"]%string.
  unfold encode_or, LabelEncoder.transform.
  cbn [LabelEncoder.position].
  repeat match goal with
         | |- context [String.eqb tier ?c] =>
             let E := fresh "E" in
             destruct (String.eqb tier c) eqn:E;
             [ apply String.eqb_eq in E; subst tier; discriminate H | ]
         end.
  reflexivity.
Qed.

Lemma calculate_rules_price_unknown_tier (base_price cost : Q) (tier lifecycle : string)
    (demand_index : option Q) (competitor_avg : Q) (market_oos : bool) :
  known_tier tier = false ->
  calculate_rules_price base_price cost tier lifecycle demand_index
    competitor_avg market_oos
  = calculate_rules_price base_price cost "mid" lifecycle demand_index
      competitor_avg market_oos.
Proof.
  intro H. unfold calculate_rules_price, enforce_boundaries.
  fold (tier_config_of tier). fold (tier_config_of "mid").
  now rewrite (tier_config_of_unknown _ H).
Qed.

Lemma predict_adjustment_unknown_tier (fitted : Features -> Q) (base_price : Q)
    (tier category lifecycle : string) (competitor_avg : Q)
    (market_oos : bool) (demand_index : Q) :
  known_tier tier = false ->
  predict_adjustment (train fitted) base_price tier category lifecycle
    competitor_avg market_oos demand_index
  = predict_adjustment (train fitted) base_price "mid" category lifecycle
      competitor_avg market_oos demand_index.
Proof.
  intro H. unfold predict_adjustment. cbn [train encoders model].
  now rewrite (encode_unknown_tier _ H).
Qed.

Lemma generate_tags_unknown_tier (lifecycle : string)
    (demand_index margin_pct our_price competitor_avg : Q)
    (tier : string) (market_oos : bool) :
  known_tier tier = false ->
  SmartTagEngine.generate_tags lifecycle demand_index margin_pct our_price
    competitor_avg tier market_oos
  = SmartTagEngine.generate_tags lifecycle demand_index margin_pct our_price
      competitor_avg "mid" market_oos.
Proof.
  intro H. unfold SmartTagEngine.generate_tags.
  fold (tier_config_of tier). fold (tier_config_of "mid").
  now rewrite (tier_config_of_unknown _ H).
Qed.

(** C6, as the code has it.  For a tier string whose lower-case form is
    not one of low, mid, high, premium the call behaves as for ["mid"]: it
    raises or returns exactly when the call with ["mid"] does, and it
    returns the same record, whose [tier] entry echoes the string passed.
    With a base price that is not zero it returns. *)
Theorem unknown_tier_falls_back_to_mid (ml_weight : Q) (fitted : Features -> Q)
    (product_name : string) (base_price cost : Q)
    (tier category lifecycle : string) (competitor_avg : Q)
    (market_oos : bool) (demand_index : Q) :
  known_tier tier = false ->
  let self := {| ml_weight := ml_weight; ml_model := train fitted |} in
  get_recommendation self product_name base_price cost tier category lifecycle
    competitor_avg market_oos demand_index
  = Py.map (with_tier tier)
      (get_recommendation self product_name base_price cost "mid" category
         lifecycle competitor_avg market_oos demand_index)
  /\ (~ base_price == 0 ->
      exists r,
        get_recommendation self product_name base_price cost tier category
          lifecycle competitor_avg market_oos demand_index = Ok r).
Proof.
  intros H self. split.
  - unfold get_recommendation, blend. cbn [ml_model self].
    rewrite (calculate_rules_price_unknown_tier _ _ _ _ _ _ _ H).
    rewrite (predict_adjustment_unknown_tier _ _ _ _ _ _ _ _ H).
    fold (tier_config_of tier). fold (tier_config_of "mid").
    rewrite (tier_config_of_unknown _ H).
    destruct (Py.div _ base_price) as [ra|e]; [|reflexivity].
    cbn [Py.bind Py.map Locals.hybrid_price Locals.rules_price Locals.ml_price
         Locals.ml_adjustment].
    match goal with
    | |- context [Py.gtb ?h 0] => destruct (Py.gtb h 0)
    end.
    + match goal with
      | |- context [Py.div ?a ?h] => destruct (Py.div a h) as [m|e]
      end; [|reflexivity].
      cbn [Py.bind].
      rewrite (generate_tags_unknown_tier _ _ _ _ _ _ _ H).
      match goal with
      | |- context [Py.div ?a base_price] => destruct (Py.div a base_price) as [c|e]
      end; reflexivity.
    + cbn [Py.bind].
      rewrite (generate_tags_unknown_tier _ _ _ _ _ _ _ H).
      match goal with
      | |- context [Py.div ?a base_price] => destruct (Py.div a base_price) as [c|e]
      end; reflexivity.
  - intro Hb.
    destruct (blend_ok self base_price cost tier category lifecycle competitor_avg
                market_oos demand_index Hb) as (b & Hblend & _).
    destruct (get_recommendation_ok self product_name _ _ _ _ _ _ _ _ b Hb Hblend)
      as (r & Hr & _).
    now exists r.
Qed.

Lemma unknown_tier_falls_back_to_mid_witness :
  known_tier "Budget" = false
  /\ (get_recommendation {| ml_weight := 1 # 2; ml_model := train (fun _ => 3 # 100) |}
        "p" 10 9 "Budget" "Other" "growth" 10 true (12 # 10)
      = Py.map (with_tier "Budget")
          (get_recommendation
             {| ml_weight := 1 # 2; ml_model := train (fun _ => 3 # 100) |}
             "p" 10 9 "mid" "Other" "growth" 10 true (12 # 10))
      /\ (~ 10 == 0 ->
          exists r,
            get_recommendation
              {| ml_weight := 1 # 2; ml_model := train (fun _ => 3 # 100) |}
              "p" 10 9 "Budget" "Other" "growth" 10 true (12 # 10) = Ok r)).
Proof.
  assert (H : known_tier "Budget" = false) by reflexivity.
  split; [exact H|].
  exact (unknown_tier_falls_back_to_mid (1 # 2) (fun _ => 3 # 100) "p" 10 9
           "Budget" "Other" "growth" 10 true (12 # 10) H).
Defined.

(** C6, as the specification words it, fails.  The string "High" is none
    of the strings low, mid, high, premium, yet the lookup lower-cases it
    and finds the high tier: with cost 7 the recommendation is 8.40, where
    "mid" gives 8.05.  And an unknown tier does not keep the call from
    raising: with a base price of zero it raises, as it does for "mid". *)
Lemma unknown_tier_counterexample :
  (Py.str_in "High" ["low"; "mid"; "high"; "premium"]%string = false
   /\ exists r_high r_mid,
        get_recommendation (constant_engine 0 0) "p" 8 7 "High" "Other"
          "maturity" 8 false 1 = Ok r_high
        /\ get_recommendation (constant_engine 0 0) "p" 8 7 "mid" "Other"
             "maturity" 8 false 1 = Ok r_mid
        /\ recommended_price r_high == 840 # 100
        /\ recommended_price r_mid == 805 # 100
        /\ ~ recommended_price r_high == recommended_price r_mid)
  /\ Py.str_in "Budget" ["low"; "mid"; "high"; "premium"]%string = false
  /\ get_recommendation (constant_engine 0 0) "p" 0 7 "Budget" "Other"
       "maturity" 8 false 1 = Raise ZeroDivisionError.
Proof.
  split; [split; [reflexivity|]|split; [reflexivity|vm_compute; reflexivity]].
  eexists. eexists.
  split; [vm_compute; reflexivity|].
  split; [vm_compute; reflexivity|].
  cbn [recommended_price].
  repeat split; vm_compute; try reflexivity; discriminate.
Qed.

(** ** Smart tags *)

Lemma truthy_redundant (lifecycle keyword : string) :
  keyword <> EmptyString ->
  Py.truthy lifecycle && String.eqb (Py.lower lifecycle) keyword
  = String.eqb (Py.lower lifecycle) keyword.
Proof.
  intro H. destruct lifecycle as [|c s]; [|reflexivity].
  cbn. destruct keyword; [contradiction|reflexivity].
Qed.

Lemma catalogue_NoDup :
  NoDup (List.map snd SmartTagEngine.TAG_DEFINITIONS).
Proof.
  cbn. repeat constructor; cbn; intuition discriminate.
Qed.

Import SmartTagEngine.

(** C9.  The tag list is the concatenation, in check order, of what each of
    the five checks contributes on its own: the lifecycle check (launch,
    else decline), the out-of-stock flag, demand index above 1.2, price
    below 95% of a positive competitor average, margin percent below the
    resolved tier's minimum margin in percent.  No tag occurs twice. *)
Theorem generate_tags_checks (lifecycle : string)
    (demand_index margin_pct our_price competitor_avg : Q)
    (tier : string) (market_oos : bool) :
  generate_tags lifecycle demand_index margin_pct our_price competitor_avg
    tier market_oos
  = (if String.eqb (Py.lower lifecycle) "launch" then [new_arrival]
     else if String.eqb (Py.lower lifecycle) "decline" then [declining]
     else [])
    ++ (if market_oos then [competitor_oos] else [])
    ++ (if Py.gtb demand_index (12 # 10) then [high_demand] else [])
    ++ (if Py.gtb competitor_avg 0 && Py.ltb our_price (competitor_avg * (95 # 100))
        then [price_leader] else [])
    ++ (if Py.ltb margin_pct (min_margin_pct (tier_config_of tier) * 100)
        then [margin_watch] else [])
  /\ NoDup (generate_tags lifecycle demand_index margin_pct our_price
              competitor_avg tier market_oos).
Proof.
  unfold generate_tags. fold (tier_config_of tier).
  rewrite !truthy_redundant by discriminate.
  destruct (String.eqb (Py.lower lifecycle) "launch");
    [|destruct (String.eqb (Py.lower lifecycle) "decline")];
    destruct market_oos;
    destruct (Py.gtb demand_index (12 # 10));
    destruct (Py.gtb competitor_avg 0 && Py.ltb our_price (competitor_avg * (95 # 100)));
    destruct (Py.ltb margin_pct (min_margin_pct (tier_config_of tier) * 100));
    (split; [reflexivity|]);
    cbn [app]; repeat constructor; cbn [In]; intuition discriminate.
Qed.

(** ** The singleton *)

Section Singleton.

Variable fitted : Features -> Q.

(** Once the variable holds a reference, a call answers it and changes
    nothing. *)
Lemma get_pricing_engine_cached (g : Globals) (e : nat) (w : Q) :
  _engine_instance g = Some e ->
  get_pricing_engine fitted w g = (e, g).
Proof. intro H. unfold get_pricing_engine. now rewrite H. Qed.

Lemma get_pricing_engine_calls_cached (g : Globals) (e : nat) (ws : list Q) :
  _engine_instance g = Some e ->
  get_pricing_engine_calls fitted ws g = (List.map (fun _ => e) ws, g).
Proof.
  intro H. induction ws as [|w ws IH]; cbn [get_pricing_engine_calls List.map].
  - reflexivity.
  - rewrite (get_pricing_engine_cached g e w H), IH. reflexivity.
Qed.

Lemma get_pricing_engine_first (g : Globals) (w : Q) :
  _engine_instance g = None ->
  let r := get_pricing_engine fitted w g in
  _engine_instance (snd r) = Some (fst r)
  /\ deref (snd r) (fst r) = Some {| ml_weight := w; ml_model := train fitted |}.
Proof.
  intro H. unfold get_pricing_engine. rewrite H.
  cbn [PricingEngine_new fst snd heap _engine_instance]. split; [reflexivity|].
  unfold deref. cbn [heap].
  rewrite nth_error_app2 by apply Nat.le_refl.
  now rewrite Nat.sub_diag.
Qed.

End Singleton.

(** C10.  Starting with no engine constructed, the first call
    [get_pricing_engine(w1)] constructs one with ml_weight w1; every later
    call, whatever its argument, returns the reference of that same object
    and leaves the state as it is, so the engine's ml_weight is still w1. *)
Theorem get_pricing_engine_singleton (fitted : Features -> Q) (g : Globals)
    (w1 : Q) (ws : list Q) :
  _engine_instance g = None ->
  let first := get_pricing_engine fitted w1 g in
  let later := get_pricing_engine_calls fitted ws (snd first) in
  (forall w2, get_pricing_engine fitted w2 (snd first) = (fst first, snd first))
  /\ length (fst later) = length ws
  /\ Forall (fun e => e = fst first) (fst later)
  /\ snd later = snd first
  /\ option_map ml_weight (deref (snd later) (fst first)) = Some w1.
Proof.
  intros H first later.
  destruct (get_pricing_engine_first fitted g w1 H) as [Hinst Hderef].
  fold first in Hinst, Hderef.
  assert (Hlater : later = (List.map (fun _ => fst first) ws, snd first))
    by (apply get_pricing_engine_calls_cached; exact Hinst).
  rewrite Hlater. cbn [fst snd]. repeat split.
  - intro w2. apply get_pricing_engine_cached. exact Hinst.
  - apply length_map.
  - apply Forall_forall. intros e He. apply in_map_iff in He.
    destruct He as (_ & He & _). now symmetry.
  - rewrite Hderef. reflexivity.
Qed.

Lemma get_pricing_engine_singleton_witness :
  _engine_instance initial_globals = None
  /\ let first := get_pricing_engine (fun _ => 3 # 100) (1 # 2) initial_globals in
     let later :=
       get_pricing_engine_calls (fun _ => 3 # 100) [9 # 10; 0] (snd first) in
     (forall w2,
         get_pricing_engine (fun _ => 3 # 100) w2 (snd first)
         = (fst first, snd first))
     /\ length (fst later) = length [9 # 10; 0]
     /\ Forall (fun e => e = fst first) (fst later)
     /\ snd later = snd first
     /\ option_map ml_weight (deref (snd later) (fst first)) = Some (1 # 2).
Proof.
  assert (H : _engine_instance initial_globals = None) by reflexivity.
  split; [exact H|].
  exact (get_pricing_engine_singleton (fun _ => 3 # 100) initial_globals (1 # 2)
           [9 # 10; 0] H).
Defined.

(** * Further properties of the rule cascade *)

(** X1.  [_clamp] answers a value between its bounds whenever the bounds are
    in order, leaves a value already between them as it is, and answers the
    lower bound when the bounds are crossed. *)
Theorem clamp_range (value low high : Q) :
  (low <= high ->
   low <= _clamp value low high <= high
   /\ (low <= value <= high -> _clamp value low high == value))
  /\ (high < low -> _clamp value low high = low).
Proof.
  unfold _clamp. split.
  - intro H. split; [|intro Hv]; py_cases; lra.
  - intro H. py_cases; try reflexivity; lra.
Qed.

(** X2.  [_pct_change] never divides by zero: from an old value of zero the
    change is 0; otherwise applying the change to the old value gives the
    new one back. *)
Theorem pct_change_round_trip (old new : Q) :
  (old == 0 -> _pct_change old new = 0)
  /\ (~ old == 0 -> old * (1 + _pct_change old new) == new).
Proof.
  unfold _pct_change. split; intro H.
  - apply eqb_true in H. now rewrite H.
  - pose proof H as H'. apply eqb_false in H'. rewrite H'. field. exact H.
Qed.

Lemma demand_multiplier_bounds (d : Q) :
  (1 < d ->
   (105 # 100) <= demand_multiplier (Some d) DEFAULT_RULES <= (110 # 100))
  /\ (d < 1 ->
      (90 # 100) <= demand_multiplier (Some d) DEFAULT_RULES <= 1)
  /\ (d == 1 -> demand_multiplier (Some d) DEFAULT_RULES = 1)
  /\ (2 <= d -> demand_multiplier (Some d) DEFAULT_RULES == (110 # 100))
  /\ (d <= 0 -> demand_multiplier (Some d) DEFAULT_RULES == (90 # 100))
  /\ ((1 # 2) <= d <= (3 # 2) ->
      (95 # 100) <= demand_multiplier (Some d) DEFAULT_RULES <= (1075 # 1000)).
Proof.
  unfold demand_multiplier, DEFAULT_RULES.
  cbn [demand_up_min demand_up_max demand_down_max].
  unfold _clamp, Py.gtb.
  repeat split; intros; py_cases; try reflexivity; lra.
Qed.

Lemma scale_le (price m lo hi : Q) :
  0 <= price -> lo <= m <= hi -> price * lo <= price * m <= price * hi.
Proof.
  intros Hp [Hlo Hhi].
  rewrite !(Qmult_comm price).
  split; apply Qmult_le_compat_r; assumption.
Qed.

(** X3.  With the default rules and a price that is not negative, a demand
    index above 1.0 raises the price by at least 5% and at most 10% (so the
    uplift jumps to 5% right above 1.0), a demand index below 1.0 lowers it
    by at most 10%, and no demand index ([None]) leaves it as it is. *)
Theorem apply_demand_adjustment_bounds (price d : Q) :
  0 <= price ->
  (1 < d ->
   price * (105 # 100) <= apply_demand_adjustment price (Some d) DEFAULT_RULES
   <= price * (110 # 100))
  /\ (d < 1 ->
      price * (90 # 100) <= apply_demand_adjustment price (Some d) DEFAULT_RULES
      <= price * 1)
  /\ apply_demand_adjustment price None DEFAULT_RULES = price.
Proof.
  intro Hp.
  destruct (demand_multiplier_bounds d) as (Hup & Hdown & _).
  split; [|split]; [intro H|intro H|reflexivity];
    rewrite apply_demand_adjustment_multiplies;
    apply scale_le; auto.
Qed.

Lemma apply_demand_adjustment_bounds_witness :
  0 <= 10
  /\ ((1 < (12 # 10) ->
       10 * (105 # 100)
       <= apply_demand_adjustment 10 (Some (12 # 10)) DEFAULT_RULES
       <= 10 * (110 # 100))
      /\ ((12 # 10) < 1 ->
          10 * (90 # 100)
          <= apply_demand_adjustment 10 (Some (12 # 10)) DEFAULT_RULES
          <= 10 * 1)
      /\ apply_demand_adjustment 10 None DEFAULT_RULES = 10).
Proof.
  assert (H : 0 <= 10) by discriminate.
  split; [exact H|].
  exact (apply_demand_adjustment_bounds 10 (12 # 10) H).
Defined.

(** X4.  The demand adjustment saturates: with the default rules every
    demand index of 2.0 or more gives the full 10% uplift and every demand
    index of 0 or less the full 10% discount. *)
Theorem apply_demand_adjustment_saturates (price d : Q) :
  (2 <= d ->
   apply_demand_adjustment price (Some d) DEFAULT_RULES == price * (110 # 100))
  /\ (d <= 0 ->
      apply_demand_adjustment price (Some d) DEFAULT_RULES == price * (90 # 100)).
Proof.
  destruct (demand_multiplier_bounds d) as (_ & _ & _ & Hhi & Hlo & _).
  split; intro H; rewrite apply_demand_adjustment_multiplies;
    [rewrite (Hhi H)|rewrite (Hlo H)]; reflexivity.
Qed.

Lemma lower_truthy (s1 s2 : string) :
  Py.lower s1 = Py.lower s2 -> Py.truthy s1 = Py.truthy s2.
Proof. destruct s1, s2; cbn; intro H; try reflexivity; discriminate H. Qed.

Lemma lifecycle_unflagged_unchanged (price : Q) (lifecycle : string) :
  Py.str_in (Py.lower lifecycle) ["launch"; "growth"; "decline"]%string = false ->
  apply_lifecycle_adjustment price lifecycle DEFAULT_RULES == price.
Proof.
  intro H. rewrite apply_lifecycle_adjustment_multiplies.
  unfold lifecycle_multiplier, DEFAULT_RULES.
  cbn [launch_discount growth_increase maturity_adjustment decline_discount].
  unfold Py.str_in in H. cbn [existsb] in H.
  destruct (String.eqb (Py.lower lifecycle) "launch"); [discriminate H|].
  destruct (String.eqb (Py.lower lifecycle) "growth"); [discriminate H|].
  destruct (String.eqb (Py.lower lifecycle) "decline");
    [destruct (String.eqb (Py.lower lifecycle) "maturity"); discriminate H|].
  destruct (String.eqb (Py.lower lifecycle) "maturity"); ring.
Qed.

(** X5.  The lifecycle adjustment reads its stage without regard to case;
    and with the default rules it changes the price only for the stages
    launch, growth and decline: maturity, an unknown stage and the empty
    string all leave it as it is. *)
Theorem apply_lifecycle_adjustment_stages (price : Q) (lifecycle : string) :
  (forall lifecycle' rules,
      Py.lower lifecycle' = Py.lower lifecycle ->
      apply_lifecycle_adjustment price lifecycle' rules
      = apply_lifecycle_adjustment price lifecycle rules)
  /\ (Py.str_in (Py.lower lifecycle) ["launch"; "growth"; "decline"]%string = false ->
      apply_lifecycle_adjustment price lifecycle DEFAULT_RULES == price).
Proof.
  split.
  - intros l' rules H. unfold apply_lifecycle_adjustment.
    rewrite (lower_truthy _ _ H), H. reflexivity.
  - apply lifecycle_unflagged_unchanged.
Qed.

(** X6.  Enforcing the margin floor twice is the same as enforcing it once;
    a price at or above the floor passes unchanged; the outcome is never
    below the floor. *)
Theorem enforce_boundaries_idempotent (price cost : Q) (tier : string)
    (rules rules' : PricingRules) :
  enforce_boundaries (enforce_boundaries price cost tier rules) cost tier rules'
  = enforce_boundaries price cost tier rules
  /\ (margin_floor cost tier <= price ->
      enforce_boundaries price cost tier rules = price)
  /\ margin_floor cost tier <= enforce_boundaries price cost tier rules.
Proof.
  unfold enforce_boundaries. fold (tier_config_of tier). fold (margin_floor cost tier).
  repeat split.
  - pose proof (max_ge_r price (margin_floor cost tier)) as H.
    set (m := Py.max price (margin_floor cost tier)) in *.
    unfold Py.max, Py.gtb.
    destruct (Py.ltb m (margin_floor cost tier)) eqn:E; [|reflexivity].
    apply ltb_true in E. lra.
  - intro H. unfold Py.max, Py.gtb.
    destruct (Py.ltb price (margin_floor cost tier)) eqn:E; [|reflexivity].
    apply ltb_true in E. lra.
  - apply max_ge_r.
Qed.

Lemma lifecycle_multiplier_bounds (lifecycle : string) :
  (80 # 100) <= lifecycle_multiplier lifecycle DEFAULT_RULES <= (105 # 100).
Proof.
  unfold lifecycle_multiplier, DEFAULT_RULES.
  cbn [launch_discount growth_increase maturity_adjustment decline_discount].
  repeat match goal with
         | |- context [String.eqb ?a ?b] => destruct (String.eqb a b)
         end; lra.
Qed.

Lemma competition_multiplier_bounds (market_oos : bool) :
  1 <= competition_multiplier market_oos DEFAULT_RULES <= (1075 # 1000).
Proof.
  unfold competition_multiplier, DEFAULT_RULES.
  cbn [out_of_stock_bump_min out_of_stock_bump_max].
  destruct market_oos; [|lra].
  setoid_replace (1 + ((5 # 100) + (10 # 100)) / 2) with (1075 # 1000) by field.
  lra.
Qed.

Lemma demand_multiplier_range (demand_index : option Q) :
  (90 # 100) <= demand_multiplier demand_index DEFAULT_RULES <= (110 # 100).
Proof.
  destruct demand_index as [d|]; [|cbn; lra].
  destruct (demand_multiplier_bounds d) as (Hup & Hdown & Heq & _).
  destruct (Qlt_le_dec 1 d) as [H|H]; [specialize (Hup H); lra|].
  destruct (Qlt_le_dec d 1) as [H'|H']; [specialize (Hdown H'); lra|].
  assert (E : d == 1) by lra. rewrite (Heq E). lra.
Qed.

(** X7.  With a base price that is not negative, the three multiplicative
    stages together move the price by a factor between 0.72 and 1.241625;
    so the rule price lies between max(0.72 × base, floor) and
    max(1.241625 × base, floor). *)
Theorem calculate_rules_price_bounds (base_price cost : Q) (tier lifecycle : string)
    (demand_index : option Q) (competitor_avg : Q) (market_oos : bool) :
  0 <= base_price ->
  Qmax (base_price * (72 # 100)) (margin_floor cost tier)
  <= calculate_rules_price base_price cost tier lifecycle demand_index
       competitor_avg market_oos
  <= Qmax (base_price * (1241625 # 1000000)) (margin_floor cost tier).
Proof.
  intro Hb. unfold calculate_rules_price.
  rewrite enforce_boundaries_is_max.
  rewrite apply_competition_adjustment_multiplies,
    apply_lifecycle_adjustment_multiplies, apply_demand_adjustment_multiplies.
  pose proof (demand_multiplier_range demand_index) as Hd.
  pose proof (lifecycle_multiplier_bounds lifecycle) as Hl.
  pose proof (competition_multiplier_bounds market_oos) as Hc.
  set (dm := demand_multiplier demand_index DEFAULT_RULES) in *.
  set (lm := lifecycle_multiplier lifecycle DEFAULT_RULES) in *.
  set (cm := competition_multiplier market_oos DEFAULT_RULES) in *.
  assert (H1 : base_price * (90 # 100) <= base_price * dm <= base_price * (110 # 100))
    by (apply scale_le; assumption).
  assert (H2lo : base_price * (90 # 100) * (80 # 100) <= base_price * dm * lm).
  { apply Qmult_le_compat_nonneg; split; lra. }
  assert (H2hi : base_price * dm * lm <= base_price * (110 # 100) * (105 # 100)).
  { apply Qmult_le_compat_nonneg; split; lra. }
  assert (H0 : 0 <= base_price * dm * lm).
  { lra. }
  assert (H3lo : base_price * (90 # 100) * (80 # 100) * 1 <= base_price * dm * lm * cm).
  { apply Qmult_le_compat_nonneg; split; lra. }
  assert (H3hi : base_price * dm * lm * cm
                 <= base_price * (110 # 100) * (105 # 100) * (1075 # 1000)).
  { apply Qmult_le_compat_nonneg; split; lra. }
  split; apply Q.max_le_compat_r.
  - setoid_replace (base_price * (72 # 100))
      with (base_price * (90 # 100) * (80 # 100) * 1) by ring.
    exact H3lo.
  - setoid_replace (base_price * (1241625 # 1000000))
      with (base_price * (110 # 100) * (105 # 100) * (1075 # 1000)) by ring.
    exact H3hi.
Qed.

Lemma calculate_rules_price_bounds_witness :
  0 <= 10
  /\ Qmax (10 * (72 # 100)) (margin_floor 7 "mid")
     <= calculate_rules_price 10 7 "mid" "decline" (Some (1 # 2)) 10 false
     <= Qmax (10 * (1241625 # 1000000)) (margin_floor 7 "mid").
Proof.
  assert (H : 0 <= 10) by discriminate.
  split; [exact H|].
  exact (calculate_rules_price_bounds 10 7 "mid" "decline" (Some (1 # 2)) 10 false H).
Defined.

(** * Further properties of the recommendation *)

Lemma round_half_even_compat (x y : Q) :
  x == y -> Py.round_half_even x = Py.round_half_even y.
Proof.
  intro H. unfold Py.round_half_even.
  rewrite (Qfloor_comp _ _ H).
  assert (E : x - inject_Z (Qfloor y) == y - inject_Z (Qfloor y)) by (rewrite H; reflexivity).
  rewrite (Qcompare_comp _ _ E _ _ (Qeq_refl (1 # 2))). reflexivity.
Qed.

Lemma round_compat (x y : Q) (n : nat) : x == y -> Py.round x n = Py.round y n.
Proof.
  intro H. unfold Py.round.
  rewrite (round_half_even_compat (x * inject_Z (10 ^ Z.of_nat n))
             (y * inject_Z (10 ^ Z.of_nat n))); [reflexivity|].
  rewrite H. reflexivity.
Qed.

Lemma round_max (a b : Q) (n : nat) :
  Py.round (Py.max a b) n == Qmax (Py.round a n) (Py.round b n).
Proof.
  unfold Py.max, Py.gtb. py_case a b.
  - symmetry. apply Q.max_r. apply round_mono. lra.
  - symmetry. apply Q.max_l. apply round_mono. exact C.
Qed.

Lemma max_compat (a a' b : Q) : a == a' -> Py.max a b == Py.max a' b.
Proof. intro H. rewrite !max_is_Qmax, H. reflexivity. Qed.

Lemma tier_config_cases (tier : string) :
  min_margin_pct (tier_config_of tier) = 10 # 100
  \/ min_margin_pct (tier_config_of tier) = 15 # 100
  \/ min_margin_pct (tier_config_of tier) = 20 # 100
  \/ min_margin_pct (tier_config_of tier) = 25 # 100.
Proof.
  unfold tier_config_of, TIER_CONFIGS. cbn [Py.dict_get].
  repeat match goal with
         | |- context [String.eqb ?a ?b] => destruct (String.eqb a b)
         end; cbn; auto.
Qed.

(** The record [get_recommendation] returns, field by field. *)
Lemma get_recommendation_record (self : PricingEngine) (name : string)
    (base_price cost : Q) (tier category lifecycle : string)
    (competitor_avg : Q) (market_oos : bool) (demand_index : Q) (b : Locals.t) :
  ~ base_price == 0 ->
  blend self base_price cost tier category lifecycle competitor_avg
    market_oos demand_index = Ok b ->
  get_recommendation self name base_price cost tier category lifecycle
    competitor_avg market_oos demand_index
  = Ok {| product_name := name;
          recommended_price := Py.round (final_price b cost tier) 2;
          rules_price := Py.round (Locals.rules_price b) 2;
          ml_price := Py.round (Locals.ml_price b) 2;
          ml_adjustment_pct := Py.round (Locals.ml_adjustment b * 100) 1;
          price_change_pct :=
            Py.round ((final_price b cost tier - base_price) / base_price * 100) 1;
          margin_pct := Py.round (final_margin (final_price b cost tier) cost) 1;
          smart_tags :=
            SmartTagEngine.generate_tags lifecycle demand_index
              (final_margin (final_price b cost tier) cost)
              (final_price b cost tier) competitor_avg tier market_oos;
          tier := tier;
          demand_index := demand_index;
          competitor_avg := competitor_avg;
          rule_adjustments :=
            {| demand_adj := negb (Py.eqb demand_index 1);
               lifecycle_adj :=
                 Py.str_in (Py.lower lifecycle)
                   ["launch"; "growth"; "decline"]%string;
               market_oos_adj := market_oos;
               margin_floor_applied :=
                 Py.eqb (final_price b cost tier) (margin_floor cost tier) |} |}.
Proof.
  intros Hb Hblend. unfold get_recommendation. rewrite Hblend. cbn [Py.bind].
  fold (tier_config_of tier). fold (margin_floor cost tier).
  fold (final_price b cost tier). unfold final_margin.
  set (h := final_price b cost tier).
  destruct (Py.gtb h 0) eqn:G.
  - assert (Hh : ~ h == 0).
    { unfold Py.gtb in G. apply ltb_true in G. lra. }
    rewrite (div_ok _ _ Hh). cbn [Py.bind]. rewrite (div_ok _ _ Hb). reflexivity.
  - cbn [Py.bind]. rewrite (div_ok _ _ Hb). reflexivity.
Qed.

(** X9.  Blending the adjustments linearly blends the prices linearly: for
    a base price that is not zero the blended price before the floor is
    (1 − ml_weight) × rule price + ml_weight × model price, and for
    ml_weight in [0, 1] it lies between the two. *)
Theorem blend_is_convex (self : PricingEngine) (base_price cost : Q)
    (tier category lifecycle : string) (competitor_avg : Q)
    (market_oos : bool) (demand_index : Q) :
  ~ base_price == 0 ->
  exists b,
    blend self base_price cost tier category lifecycle competitor_avg
      market_oos demand_index = Ok b
    /\ Locals.hybrid_price b
       == (1 - ml_weight self) * Locals.rules_price b
          + ml_weight self * Locals.ml_price b
    /\ (0 <= ml_weight self <= 1 ->
        Qmin (Locals.rules_price b) (Locals.ml_price b)
        <= Locals.hybrid_price b
        <= Qmax (Locals.rules_price b) (Locals.ml_price b)).
Proof.
  intro Hb.
  destruct (blend_ok self base_price cost tier category lifecycle competitor_avg
              market_oos demand_index Hb)
    as (b & Hblend & _ & Hra & _ & Hmp & Hbl & Hh).
  exists b. split; [exact Hblend|].
  assert (E : Locals.hybrid_price b
              == (1 - ml_weight self) * Locals.rules_price b
                 + ml_weight self * Locals.ml_price b).
  { rewrite Hh, Hbl, Hmp, Hra. field. exact Hb. }
  split; [exact E|].
  intros [Hw0 Hw1]. rewrite E.
  set (w := ml_weight self) in *.
  set (rp := Locals.rules_price b). set (mp := Locals.ml_price b).
  assert (Hrm : (1 - w) * rp + w * mp == rp + w * (mp - rp)) by ring.
  assert (Hmr : (1 - w) * rp + w * mp == mp + (1 - w) * (rp - mp)) by ring.
  destruct (Qlt_le_dec rp mp) as [Hlt|Hle].
  - rewrite (Q.min_l rp mp), (Q.max_r rp mp) by lra.
    assert (0 <= w * (mp - rp)) by (apply Qmult_le_0_compat; lra).
    assert (0 <= (1 - w) * (mp - rp)) by (apply Qmult_le_0_compat; lra).
    assert ((1 - w) * rp + w * mp == mp - (1 - w) * (mp - rp)) by ring.
    lra.
  - rewrite (Q.min_r rp mp), (Q.max_l rp mp) by lra.
    assert (0 <= w * (rp - mp)) by (apply Qmult_le_0_compat; lra).
    assert (0 <= (1 - w) * (rp - mp)) by (apply Qmult_le_0_compat; lra).
    assert ((1 - w) * rp + w * mp == rp - w * (rp - mp)) by ring.
    lra.
Qed.

Lemma blend_is_convex_witness :
  ~ 10 == 0
  /\ exists b,
       blend (constant_engine (1 # 4) (3 # 100)) 10 7 "mid" "Other" "growth"
         10 true (12 # 10) = Ok b
       /\ Locals.hybrid_price b
          == (1 - ml_weight (constant_engine (1 # 4) (3 # 100))) * Locals.rules_price b
             + ml_weight (constant_engine (1 # 4) (3 # 100)) * Locals.ml_price b
       /\ (0 <= ml_weight (constant_engine (1 # 4) (3 # 100)) <= 1 ->
           Qmin (Locals.rules_price b) (Locals.ml_price b)
           <= Locals.hybrid_price b
           <= Qmax (Locals.rules_price b) (Locals.ml_price b)).
Proof.
  assert (H : ~ 10 == 0) by (intro E; discriminate E).
  split; [exact H|].
  exact (blend_is_convex (constant_engine (1 # 4) (3 # 100)) 10 7 "mid" "Other"
           "growth" 10 true (12 # 10) H).
Defined.

Lemma rules_price_ge_floor (base_price cost : Q) (tier lifecycle : string)
    (demand_index : option Q) (competitor_avg : Q) (market_oos : bool) :
  margin_floor cost tier
  <= calculate_rules_price base_price cost tier lifecycle demand_index
       competitor_avg market_oos.
Proof. unfold calculate_rules_price, enforce_boundaries. apply max_ge_r. Qed.

(** X10.  With ml_weight = 1 the blended price is the model price, and the
    returned recommended_price is the larger of the returned ml_price and
    the margin floor rounded to two decimals: the floor also binds an
    engine that follows the model alone. *)
Theorem recommended_price_at_ml_weight_one (self : PricingEngine) (name : string)
    (base_price cost : Q) (tier category lifecycle : string)
    (competitor_avg : Q) (market_oos : bool) (demand_index : Q) :
  ~ base_price == 0 ->
  ml_weight self == 1 ->
  exists b r,
    blend self base_price cost tier category lifecycle competitor_avg
      market_oos demand_index = Ok b
    /\ get_recommendation self name base_price cost tier category lifecycle
         competitor_avg market_oos demand_index = Ok r
    /\ Locals.hybrid_price b == Locals.ml_price b
    /\ recommended_price r
       == Qmax (ml_price r) (Py.round (margin_floor cost tier) 2).
Proof.
  intros Hb Hw.
  destruct (blend_ok self base_price cost tier category lifecycle competitor_avg
              market_oos demand_index Hb)
    as (b & Hblend & _ & _ & _ & Hmp & Hbl & Hh).
  exists b.
  rewrite (get_recommendation_record self name _ _ _ _ _ _ _ _ b Hb Hblend).
  eexists. split; [exact Hblend|]. split; [reflexivity|].
  assert (E : Locals.hybrid_price b == Locals.ml_price b).
  { rewrite Hh, Hbl, Hmp, Hw. ring. }
  split; [exact E|].
  cbn [recommended_price ml_price]. unfold final_price.
  rewrite (round_compat _ _ 2 (max_compat _ _ (margin_floor cost tier) E)).
  apply round_max.
Qed.

Lemma recommended_price_at_ml_weight_one_witness :
  ~ 10 == 0
  /\ ml_weight (constant_engine 1 (-(30 # 100))) == 1
  /\ exists b r,
       blend (constant_engine 1 (-(30 # 100))) 10 9 "mid" "Other" "growth" 10 true
         (12 # 10) = Ok b
       /\ get_recommendation (constant_engine 1 (-(30 # 100))) "p" 10 9 "mid"
            "Other" "growth" 10 true (12 # 10) = Ok r
       /\ Locals.hybrid_price b == Locals.ml_price b
       /\ recommended_price r
          == Qmax (ml_price r) (Py.round (margin_floor 9 "mid") 2).
Proof.
  assert (H : ~ 10 == 0) by (intro E; discriminate E).
  assert (Hw : ml_weight (constant_engine 1 (-(30 # 100))) == 1) by reflexivity.
  split; [exact H|]. split; [exact Hw|].
  exact (recommended_price_at_ml_weight_one (constant_engine 1 (-(30 # 100))) "p"
           10 9 "mid" "Other" "growth" 10 true (12 # 10) H Hw).
Defined.

(** Which checks put which tag in the list. *)
Lemma generate_tags_In (lifecycle : string)
    (demand_index margin_pct our_price competitor_avg : Q)
    (tier : string) (market_oos : bool) (tag : SmartTag) :
  In tag (generate_tags lifecycle demand_index margin_pct our_price
            competitor_avg tier market_oos)
  <-> (tag = new_arrival /\ String.eqb (Py.lower lifecycle) "launch" = true)
      \/ (tag = declining
          /\ String.eqb (Py.lower lifecycle) "launch" = false
          /\ String.eqb (Py.lower lifecycle) "decline" = true)
      \/ (tag = competitor_oos /\ market_oos = true)
      \/ (tag = high_demand /\ Py.gtb demand_index (12 # 10) = true)
      \/ (tag = price_leader
          /\ Py.gtb competitor_avg 0
             && Py.ltb our_price (competitor_avg * (95 # 100)) = true)
      \/ (tag = margin_watch
          /\ Py.ltb margin_pct (min_margin_pct (tier_config_of tier) * 100) = true).
Proof.
  unfold generate_tags. fold (tier_config_of tier).
  rewrite !truthy_redundant by discriminate.
  destruct (String.eqb (Py.lower lifecycle) "launch");
    [|destruct (String.eqb (Py.lower lifecycle) "decline")];
    destruct market_oos;
    destruct (Py.gtb demand_index (12 # 10));
    destruct (Py.gtb competitor_avg 0 && Py.ltb our_price (competitor_avg * (95 # 100)));
    destruct (Py.ltb margin_pct (min_margin_pct (tier_config_of tier) * 100));
    cbn [app In]; split; intro H; intuition (try discriminate; auto).
Qed.

(** X11.  A tag list holds at most five tags, and never both New Arrival
    and Declining. *)
Theorem generate_tags_at_most_five (lifecycle : string)
    (demand_index margin_pct our_price competitor_avg : Q)
    (tier : string) (market_oos : bool) :
  (List.length (generate_tags lifecycle demand_index margin_pct our_price
                  competitor_avg tier market_oos) <= 5)%nat
  /\ ~ (In new_arrival (generate_tags lifecycle demand_index margin_pct our_price
                          competitor_avg tier market_oos)
        /\ In declining (generate_tags lifecycle demand_index margin_pct our_price
                           competitor_avg tier market_oos)).
Proof.
  split.
  - unfold generate_tags.
    repeat match goal with
           | |- context [if ?c then _ else _] => destruct c
           end; cbn; lia.
  - intros [Hn Hd].
    apply generate_tags_In in Hn. apply generate_tags_In in Hd.
    destruct Hn as [[_ Hn]|[[E _]|[[E _]|[[E _]|[[E _]|[E _]]]]]];
      try discriminate E.
    destruct Hd as [[E _]|[[_ [Hd _]]|[[E _]|[[E _]|[[E _]|[E _]]]]]];
      try discriminate E.
    congruence.
Qed.

(** X12.  When none of the three rule flags of the returned trace is set
    (demand index 1.0, a stage other than launch, growth and decline, market
    not out of stock), the returned rules_price is the larger of the base
    price and the margin floor, rounded to two decimals. *)
Theorem no_rule_fired (self : PricingEngine) (name : string)
    (base_price cost : Q) (tier category lifecycle : string)
    (competitor_avg : Q) (market_oos : bool) (demand_index : Q)
    (r : Recommendation) :
  get_recommendation self name base_price cost tier category lifecycle
    competitor_avg market_oos demand_index = Ok r ->
  demand_adj (rule_adjustments r) = false ->
  lifecycle_adj (rule_adjustments r) = false ->
  market_oos_adj (rule_adjustments r) = false ->
  rules_price r = Py.round (Qmax base_price (margin_floor cost tier)) 2.
Proof.
  intros Hr.
  destruct (Qeq_dec base_price 0) as [Hz|Hb].
  { rewrite (get_recommendation_zero_base _ _ _ _ _ _ _ _ _ _ Hz) in Hr.
    discriminate Hr. }
  destruct (blend_ok self base_price cost tier category lifecycle competitor_avg
              market_oos demand_index Hb) as (b & Hblend & Hrp & _).
  rewrite (get_recommendation_record self name _ _ _ _ _ _ _ _ b Hb Hblend) in Hr.
  injection Hr as <-. cbn [rule_adjustments demand_adj lifecycle_adj market_oos_adj
                            rules_price].
  intros Hd Hl Ho. subst market_oos.
  apply negb_false_iff, eqb_true in Hd.
  apply round_compat. rewrite Hrp.
  unfold calculate_rules_price. rewrite enforce_boundaries_is_max.
  apply Q.max_compat; [|reflexivity].
  cbn [apply_competition_adjustment].
  rewrite (lifecycle_unflagged_unchanged _ _ Hl).
  rewrite apply_demand_adjustment_multiplies.
  destruct (demand_multiplier_bounds demand_index) as (_ & _ & H1 & _).
  rewrite (H1 Hd). ring.
Qed.

Lemma no_rule_fired_witness :
  exists r,
    get_recommendation (constant_engine (1 # 2) (3 # 100)) "p" 10 9 "mid" "Other"
      "Maturity" 10 false 1 = Ok r
    /\ demand_adj (rule_adjustments r) = false
    /\ lifecycle_adj (rule_adjustments r) = false
    /\ market_oos_adj (rule_adjustments r) = false
    /\ rules_price r = Py.round (Qmax 10 (margin_floor 9 "mid")) 2.
Proof.
  eexists.
  assert (Hr : get_recommendation (constant_engine (1 # 2) (3 # 100)) "p" 10 9 "mid"
                 "Other" "Maturity" 10 false 1 = Ok _) by (vm_compute; reflexivity).
  split; [exact Hr|].
  lazymatch type of Hr with
  | _ = Ok ?r =>
      assert (H1 : demand_adj (rule_adjustments r) = false) by reflexivity;
      assert (H2 : lifecycle_adj (rule_adjustments r) = false) by reflexivity;
      assert (H3 : market_oos_adj (rule_adjustments r) = false) by reflexivity
  end.
  split; [exact H1|]. split; [exact H2|]. split; [exact H3|].
  exact (no_rule_fired _ _ _ _ _ _ _ _ _ _ _ Hr H1 H2 H3).
Defined.

Lemma final_price_ge_floor (b : Locals.t) (cost : Q) (tier : string) :
  margin_floor cost tier <= final_price b cost tier.
Proof. apply max_ge_r. Qed.

Lemma margin_floor_pos (cost : Q) (tier : string) :
  0 < cost -> cost * (11 # 10) <= margin_floor cost tier.
Proof.
  intro Hc. unfold margin_floor.
  destruct (tier_config_cases tier) as [E|[E|[E|E]]]; rewrite E; lra.
Qed.

Lemma final_margin_pos (h cost : Q) :
  0 < h -> final_margin h cost = (h - cost) / h * 100.
Proof.
  intro H. unfold final_margin, Py.gtb.
  apply ltb_true in H. now rewrite H.
Qed.

(** X13.  The flag margin_floor_applied of the returned trace is set
    exactly when the blended price did not exceed the margin floor, and the
    returned recommended_price is then the floor rounded to two decimals. *)
Theorem margin_floor_applied_iff (self : PricingEngine) (name : string)
    (base_price cost : Q) (tier category lifecycle : string)
    (competitor_avg : Q) (market_oos : bool) (demand_index : Q) :
  ~ base_price == 0 ->
  exists b r,
    blend self base_price cost tier category lifecycle competitor_avg
      market_oos demand_index = Ok b
    /\ get_recommendation self name base_price cost tier category lifecycle
         competitor_avg market_oos demand_index = Ok r
    /\ (margin_floor_applied (rule_adjustments r) = true
        <-> Locals.hybrid_price b <= margin_floor cost tier)
    /\ (margin_floor_applied (rule_adjustments r) = true ->
        recommended_price r = Py.round (margin_floor cost tier) 2).
Proof.
  intro Hb.
  destruct (blend_ok self base_price cost tier category lifecycle competitor_avg
              market_oos demand_index Hb) as (b & Hblend & _).
  exists b. eexists. split; [exact Hblend|].
  split; [exact (get_recommendation_record self name _ _ _ _ _ _ _ _ b Hb Hblend)|].
  cbn [rule_adjustments margin_floor_applied recommended_price].
  rewrite eqb_true. unfold final_price, Py.max, Py.gtb.
  split; [split|]; intro H.
  - py_case (Locals.hybrid_price b) (margin_floor cost tier); lra.
  - py_case (Locals.hybrid_price b) (margin_floor cost tier); lra.
  - apply round_compat. exact H.
Qed.

Lemma margin_floor_applied_iff_witness :
  ~ 10 == 0
  /\ exists b r,
       blend (constant_engine (1 # 2) (3 # 100)) 10 9 "mid" "Other" "maturity"
         10 false 1 = Ok b
       /\ get_recommendation (constant_engine (1 # 2) (3 # 100)) "p" 10 9 "mid"
            "Other" "maturity" 10 false 1 = Ok r
       /\ (margin_floor_applied (rule_adjustments r) = true
           <-> Locals.hybrid_price b <= margin_floor 9 "mid")
       /\ (margin_floor_applied (rule_adjustments r) = true ->
           recommended_price r = Py.round (margin_floor 9 "mid") 2).
Proof.
  assert (H : ~ 10 == 0) by (intro E; discriminate E).
  split; [exact H|].
  exact (margin_floor_applied_iff (constant_engine (1 # 2) (3 # 100)) "p" 10 9
           "mid" "Other" "maturity" 10 false 1 H).
Defined.

(** X14.  The floor is a markup on cost, the margin a share of the price:
    with a positive cost, whenever the margin floor is what the
    recommendation ends at, the margin is min_margin / (1 + min_margin),
    below the tier's minimum margin, and the Margin Watch tag is among the
    smart tags. *)
Theorem floor_price_gets_margin_watch (self : PricingEngine) (name : string)
    (base_price cost : Q) (tier category lifecycle : string)
    (competitor_avg : Q) (market_oos : bool) (demand_index : Q) :
  ~ base_price == 0 ->
  0 < cost ->
  exists r,
    get_recommendation self name base_price cost tier category lifecycle
      competitor_avg market_oos demand_index = Ok r
    /\ (margin_floor_applied (rule_adjustments r) = true ->
        In margin_watch (smart_tags r)
        /\ margin_pct r
           = Py.round (min_margin_pct (tier_config_of tier)
                       / (1 + min_margin_pct (tier_config_of tier)) * 100) 1).
Proof.
  intros Hb Hc.
  destruct (blend_ok self base_price cost tier category lifecycle competitor_avg
              market_oos demand_index Hb) as (b & Hblend & _).
  eexists.
  split; [exact (get_recommendation_record self name _ _ _ _ _ _ _ _ b Hb Hblend)|].
  cbn [rule_adjustments margin_floor_applied smart_tags margin_pct].
  intro H. apply eqb_true in H.
  pose proof (margin_floor_pos cost tier Hc) as Hf.
  set (h := final_price b cost tier) in *.
  assert (Hh : 0 < h) by lra.
  rewrite (final_margin_pos h cost Hh).
  assert (Hm : (h - cost) / h * 100
               == min_margin_pct (tier_config_of tier)
                  / (1 + min_margin_pct (tier_config_of tier)) * 100).
  { rewrite H. unfold margin_floor.
    destruct (tier_config_cases tier) as [E|[E|[E|E]]]; rewrite E; field; lra. }
  split.
  - apply generate_tags_In. do 5 right. split; [reflexivity|].
    apply ltb_true. rewrite Hm.
    destruct (tier_config_cases tier) as [E|[E|[E|E]]]; rewrite E; reflexivity.
  - apply round_compat. exact Hm.
Qed.

Lemma floor_price_gets_margin_watch_witness :
  ~ 10 == 0
  /\ 0 < 9
  /\ exists r,
       get_recommendation (constant_engine (1 # 2) (3 # 100)) "p" 10 9 "mid" "Other"
         "maturity" 10 false 1 = Ok r
       /\ (margin_floor_applied (rule_adjustments r) = true ->
           In margin_watch (smart_tags r)
           /\ margin_pct r
              = Py.round (min_margin_pct (tier_config_of "mid")
                          / (1 + min_margin_pct (tier_config_of "mid")) * 100) 1).
Proof.
  assert (H : ~ 10 == 0) by (intro E; discriminate E).
  assert (Hc : 0 < 9) by reflexivity.
  split; [exact H|]. split; [exact Hc|].
  exact (floor_price_gets_margin_watch (constant_engine (1 # 2) (3 # 100)) "p" 10 9
           "mid" "Other" "maturity" 10 false 1 H Hc).
Defined.

(** X15.  With a positive cost the returned margin_pct is at least 9.1 and
    at most 100: the final price is at least 1.1 × cost in every tier. *)
Theorem margin_pct_range (self : PricingEngine) (name : string)
    (base_price cost : Q) (tier category lifecycle : string)
    (competitor_avg : Q) (market_oos : bool) (demand_index : Q) :
  ~ base_price == 0 ->
  0 < cost ->
  exists r,
    get_recommendation self name base_price cost tier category lifecycle
      competitor_avg market_oos demand_index = Ok r
    /\ (91 # 10) <= margin_pct r <= 100.
Proof.
  intros Hb Hc.
  destruct (blend_ok self base_price cost tier category lifecycle competitor_avg
              market_oos demand_index Hb) as (b & Hblend & _).
  eexists.
  split; [exact (get_recommendation_record self name _ _ _ _ _ _ _ _ b Hb Hblend)|].
  cbn [margin_pct].
  pose proof (margin_floor_pos cost tier Hc) as Hf.
  pose proof (final_price_ge_floor b cost tier) as Hge.
  set (h := final_price b cost tier) in *.
  assert (Hh : 0 < h) by lra.
  rewrite (final_margin_pos h cost Hh).
  assert (Hlo : (1 # 11) <= (h - cost) / h) by (apply Qle_shift_div_l; lra).
  assert (Hhi : (h - cost) / h <= 1) by (apply Qle_shift_div_r; lra).
  set (m := (h - cost) / h) in *.
  split.
  - change (91 # 10) with (Py.round (100 # 11) 1) at 1.
    apply round_mono. lra.
  - apply Qle_trans with (y := Py.round 100 1); [apply round_mono; lra|].
    discriminate.
Qed.

Lemma margin_pct_range_witness :
  ~ 10 == 0
  /\ 0 < 7
  /\ exists r,
       get_recommendation (constant_engine (1 # 2) (3 # 100)) "p" 10 7 "high" "Other"
         "growth" 10 true (12 # 10) = Ok r
       /\ (91 # 10) <= margin_pct r <= 100.
Proof.
  assert (H : ~ 10 == 0) by (intro E; discriminate E).
  assert (Hc : 0 < 7) by reflexivity.
  split; [exact H|]. split; [exact Hc|].
  exact (margin_pct_range (constant_engine (1 # 2) (3 # 100)) "p" 10 7 "high"
           "Other" "growth" 10 true (12 # 10) H Hc).
Defined.

(** * Further properties of the regressor's inputs *)

Lemma encode_unseen (classes : list string) (x : string) (default : Z) :
  ~ In x classes -> encode_or classes x default = default.
Proof.
  unfold encode_or, LabelEncoder.transform. intro H.
  assert (P : forall i, LabelEncoder.position x classes i = None).
  { induction classes as [|c cs IH]; intro i; cbn [LabelEncoder.position].
    - reflexivity.
    - destruct (String.eqb x c) eqn:E.
      + apply String.eqb_eq in E. exfalso. apply H. left. now symmetry.
      + apply IH. intro Hin. apply H. now right. }
  now rewrite P.
Qed.

(** X16.  The label encoders tell labels apart by case and keep them in
    sorted order, so the fallback codes stand for other classes than the
    ones first in the lists: a tier that is none of Low, Mid, High, Premium
    (every lower-case tier name among them) is predicted as tier "Low", a
    category the encoder has not seen as "Paper", a lifecycle it has not
    seen as "Growth". *)
Theorem predict_adjustment_fallbacks (fitted : Features -> Q) (base_price : Q)
    (tier category lifecycle : string) (competitor_avg : Q)
    (market_oos : bool) (demand_index : Q) :
  (~ In tier ["Low"; "Mid"; "High"; "Premium"]%string ->
   predict_adjustment (train fitted) base_price tier category lifecycle
     competitor_avg market_oos demand_index
   = predict_adjustment (train fitted) base_price "Low" category lifecycle
       competitor_avg market_oos demand_index)
  /\ (~ In category ["Chemicals"; "Equipment"; "Paper"; "Other"]%string ->
      predict_adjustment (train fitted) base_price tier category lifecycle
        competitor_avg market_oos demand_index
      = predict_adjustment (train fitted) base_price tier "Paper" lifecycle
          competitor_avg market_oos demand_index)
  /\ (~ In lifecycle ["Launch"; "Growth"; "Maturity"; "Decline"; "Clearance"]%string ->
      predict_adjustment (train fitted) base_price tier category lifecycle
        competitor_avg market_oos demand_index
      = predict_adjustment (train fitted) base_price tier category "Growth"
          competitor_avg market_oos demand_index).
Proof.
  unfold predict_adjustment. cbn [train encoders model].
  split; [|split]; intro H.
  - rewrite (encode_unseen (enc_tier _create_encoders) tier 1).
    + reflexivity.
    + intro Hin. apply H. cbn in Hin. cbn. tauto.
  - rewrite (encode_unseen (enc_category _create_encoders) category 3).
    + reflexivity.
    + intro Hin. apply H. cbn in Hin. cbn. tauto.
  - rewrite (encode_unseen (enc_lifecycle _create_encoders) lifecycle 2).
    + reflexivity.
    + intro Hin. apply H. cbn in Hin. cbn. tauto.
Qed.

(** * Further properties of the singleton *)

(** X17.  [get_pricing_engine] constructs at most one engine, however often
    and with whatever weights it is called and whatever the state it starts
    from; once the variable is set no call constructs anything. *)
Theorem get_pricing_engine_constructs_once (fitted : Features -> Q) (g : Globals)
    (ws : list Q) :
  let g' := snd (get_pricing_engine_calls fitted ws g) in
  (List.length (heap g') <= S (List.length (heap g)))%nat
  /\ (_engine_instance g <> None -> g' = g).
Proof.
  cbn zeta. split.
  - destruct ws as [|w ws].
    + cbn. lia.
    + cbn [get_pricing_engine_calls].
      destruct (_engine_instance g) as [e|] eqn:Hi.
      * rewrite (get_pricing_engine_cached fitted g e w Hi).
        rewrite (get_pricing_engine_calls_cached fitted g e ws Hi). cbn. lia.
      * destruct (get_pricing_engine_first fitted g w Hi) as [Hinst _].
        destruct (get_pricing_engine fitted w g) as [e1 g1] eqn:Hg.
        cbn [fst snd] in Hinst.
        rewrite (get_pricing_engine_calls_cached fitted g1 e1 ws Hinst).
        cbn [snd].
        unfold get_pricing_engine in Hg. rewrite Hi in Hg.
        cbn [PricingEngine_new] in Hg. injection Hg as _ <-.
        cbn [heap]. rewrite length_app. cbn. lia.
  - intro H. destruct (_engine_instance g) as [e|] eqn:Hi; [|contradiction].
    now rewrite (get_pricing_engine_calls_cached fitted g e ws Hi).
Qed.

(** * The approvals feed *)

Lemma leb_true (x y : Q) : PyNum.leb x y = true <-> x <= y.
Proof. apply Qle_bool_iff. Qed.

Lemma leb_false (x y : Q) : PyNum.leb x y = false <-> y < x.
Proof.
  unfold PyNum.leb. split; intro H.
  - apply Qnot_le_lt. intro Hle. apply Qle_bool_iff in Hle. congruence.
  - destruct (Qle_bool x y) eqn:E; [|reflexivity].
    apply Qle_bool_iff in E. exfalso. apply (Qlt_not_le _ _ H E).
Qed.

Ltac leb_case x y :=
  let E := fresh "C" in
  destruct (PyNum.leb x y) eqn:E;
  [ apply leb_true in E | apply leb_false in E ].

(** X18.  The sign-off level depends on the size of the change only, not on
    its direction, and a larger change never requires a lower level
    (Auto-Approved, Manager, Director, Executive in rising order). *)
Theorem approval_level_escalates (c1 c2 : Q) :
  Approvals.approval_level (- c1) = Approvals.approval_level c1
  /\ (Qabs c1 <= Qabs c2 ->
      (level_rank (Approvals.approval_level c1)
       <= level_rank (Approvals.approval_level c2))%nat).
Proof.
  unfold Approvals.approval_level, PyNum.abs. split.
  - pose proof (Qabs_opp c1) as H.
    set (a := Qabs (- c1)) in *. set (a' := Qabs c1) in *.
    leb_case a 3; leb_case a' 3; try reflexivity; try (exfalso; lra);
      leb_case a 7; leb_case a' 7; try reflexivity; try (exfalso; lra);
      leb_case a 15; leb_case a' 15; try reflexivity; exfalso; lra.
  - intro H.
    set (a := Qabs c1) in *. set (a' := Qabs c2) in *.
    leb_case a 3; leb_case a' 3; try (exfalso; lra);
      leb_case a' 7; try (exfalso; lra);
      leb_case a' 15; try (exfalso; lra);
      try (cbn; lia);
      leb_case a 7; try (exfalso; lra); try (cbn; lia);
      leb_case a 15; try (exfalso; lra); cbn; lia.
Qed.

Lemma recommend_row_usable (engine : PricingEngine) (today : string)
    (row : Approvals.Row) :
  (usable_row row = true ->
   exists entry,
     Approvals.recommend_row engine today row = Some entry
     /\ Approvals.ID entry = row_sku row
     /\ Approvals.Status entry = "Pending"%string
     /\ Approvals.Required_Approval entry
        = Approvals.approval_level (Approvals.Change_Percent entry))
  /\ (usable_row row = false -> Approvals.recommend_row engine today row = None).
Proof.
  unfold usable_row, Approvals.recommend_row, row_sku.
  destruct (Approvals.Base_Price row) as [base_price|];
    [|split; [discriminate|reflexivity]].
  destruct (Approvals.Product_Name row) as [name|];
    [|split; [discriminate|reflexivity]].
  destruct (Approvals.Tier row) as [tier|];
    [|split; [discriminate|reflexivity]].
  destruct (Approvals.SKU row) as [sku|];
    [|split; [discriminate|reflexivity]].
  split; intro H.
  - apply negb_true_iff, eqb_false in H.
    match goal with
    | |- context [get_recommendation ?e ?n ?b ?c ?t ?cat ?lc ?ca ?oos ?d] =>
        destruct (blend_ok e b c t cat lc ca oos d H) as (bl & Hblend & _);
        rewrite (get_recommendation_record e n b c t cat lc ca oos d bl H Hblend)
    end.
    eexists. split; [reflexivity|]. cbn. repeat split.
  - apply negb_false_iff, eqb_true in H.
    now rewrite (get_recommendation_zero_base _ _ _ _ _ _ _ _ _ _ H).
Qed.

(** X19.  [get_ml_recommendations] never fails on a row: it answers one
    entry for each row that has the columns SKU, Product_Name, Base_Price
    and Tier and a base price other than zero, in the order of the rows,
    and silently leaves out every other row (a zero base price among
    them).  Each entry is Pending and carries the sign-off level of its
    own change percentage. *)
Theorem get_ml_recommendations_rows (fitted : Features -> Q) (today : string)
    (rows : list Approvals.Row) (ml_weight : Q) :
  List.map Approvals.ID (Approvals.get_ml_recommendations fitted today rows ml_weight)
  = List.map row_sku (List.filter usable_row rows)
  /\ Forall
       (fun entry =>
          Approvals.Status entry = "Pending"%string
          /\ Approvals.Required_Approval entry
             = Approvals.approval_level (Approvals.Change_Percent entry))
       (Approvals.get_ml_recommendations fitted today rows ml_weight).
Proof.
  unfold Approvals.get_ml_recommendations.
  set (engine := {| ml_weight := ml_weight; ml_model := train fitted |}).
  induction rows as [|row rows [IH1 IH2]]; cbn [Approvals.recommend_rows List.filter].
  - split; [reflexivity|constructor].
  - destruct (recommend_row_usable engine today row) as [Hyes Hno].
    destruct (usable_row row).
    + destruct (Hyes eq_refl) as (entry & -> & Hid & Hst & Hlv).
      cbn [List.map]. rewrite Hid, IH1. split; [reflexivity|].
      constructor; [split; assumption|exact IH2].
    + rewrite (Hno eq_refl). split; assumption.
Qed.

(** * Elasticity *)

(** X20.  [calculate_elasticity] never raises: an old price of zero, an old
    quantity of zero or an unchanged price give 0; otherwise the elasticity
    times the relative price change is the relative quantity change. *)
Theorem calculate_elasticity_guarded (price_old price_new quantity_old quantity_new : Q) :
  exists e,
    ElasticityAnalyzer.calculate_elasticity price_old price_new quantity_old
      quantity_new = Ok e
    /\ (price_old == 0 \/ quantity_old == 0 \/ price_new == price_old -> e == 0)
    /\ (~ price_old == 0 -> ~ quantity_old == 0 -> ~ price_new == price_old ->
        e * ((price_new - price_old) / price_old)
        == (quantity_new - quantity_old) / quantity_old).
Proof.
  unfold ElasticityAnalyzer.calculate_elasticity.
  destruct (Py.eqb price_old 0) eqn:Ep; cbn [orb].
  { apply eqb_true in Ep. exists 0. split; [reflexivity|].
    split; [reflexivity|]. intros H. contradiction. }
  apply eqb_false in Ep.
  destruct (Py.eqb quantity_old 0) eqn:Eq'.
  { apply eqb_true in Eq'. exists 0. split; [reflexivity|].
    split; [reflexivity|]. intros _ H. contradiction. }
  apply eqb_false in Eq'.
  rewrite (div_ok _ _ Ep), (div_ok _ _ Eq'). cbn [Py.bind].
  destruct (Py.eqb ((price_new - price_old) / price_old) 0) eqn:Ec.
  { apply eqb_true in Ec. exists 0. split; [reflexivity|].
    split; [reflexivity|]. intros _ _ H. exfalso. apply H.
    assert (E : price_new - price_old == (price_new - price_old) / price_old * price_old)
      by (field; exact Ep).
    rewrite Ec in E. lra. }
  apply eqb_false in Ec.
  rewrite (div_ok _ _ Ec). cbn [Py.bind]. eexists. split; [reflexivity|].
  split.
  - intros [H|[H|H]]; try contradiction.
    exfalso. apply Ec. rewrite H. field. exact Ep.
  - intros _ _ _. field. split; [exact Eq'|].
    split; [exact Ep|]. intro Hz. apply Ec. rewrite Hz. field. exact Ep.
Qed.

(** X21.  The elasticity segments and the smart tags draw the same line for
    high demand: a product is in the segment High Demand Customers exactly
    when its tag list holds High Demand. *)
Theorem high_demand_segment_iff_tag (lifecycle : string)
    (demand_index margin_pct our_price competitor_avg : Q)
    (tier : string) (market_oos : bool) :
  ElasticityAnalyzer.segment_demand demand_index = "High Demand Customers"%string
  <-> In high_demand
        (generate_tags lifecycle demand_index margin_pct our_price competitor_avg
           tier market_oos).
Proof.
  rewrite generate_tags_In. unfold ElasticityAnalyzer.segment_demand.
  split.
  - intro H. do 3 right. left. split; [reflexivity|].
    destruct (Py.gtb demand_index (12 # 10)); [reflexivity|].
    destruct (Py.ltb demand_index (8 # 10)); discriminate H.
  - intros [[E _]|[[E _]|[[E _]|[[_ H]|[[E _]|[E _]]]]]]; try discriminate E.
    now rewrite H.
Qed.

(** * Demand index from orders *)

Lemma sku_lt_iff (a b : string) : sku_lt a b <-> OrderedTypeEx.String_as_OT.lt a b.
Proof.
  unfold sku_lt, String.ltb.
  rewrite <- OrderedTypeEx.String_as_OT.cmp_lt.
  unfold OrderedTypeEx.String_as_OT.cmp.
  destruct (String.compare a b); split; intro H; try reflexivity; discriminate H.
Qed.

Lemma sku_lt_trans (a b c : string) : sku_lt a b -> sku_lt b c -> sku_lt a c.
Proof.
  rewrite !sku_lt_iff. apply OrderedTypeEx.String_as_OT.lt_trans.
Qed.

Lemma sku_lt_irrefl (a : string) : ~ sku_lt a a.
Proof.
  rewrite sku_lt_iff. intro H.
  apply (OrderedTypeEx.String_as_OT.lt_not_eq a a H). reflexivity.
Qed.

Lemma sku_lt_total (a b : string) :
  String.eqb a b = false -> String.ltb a b = false -> sku_lt b a.
Proof.
  unfold sku_lt, String.ltb. intros He Hl.
  rewrite (String.compare_antisym b a).
  destruct (String.compare a b) eqn:E; cbn [CompOpp];
    try reflexivity; try discriminate Hl.
  apply String.compare_eq_iff in E. apply String.eqb_neq in He. contradiction.
Qed.

Lemma add_quantity_keys (sku : string) (q : Q) (totals : list (string * Q)) (k : string) :
  In k (List.map fst (DataLoader.add_quantity sku q totals))
  <-> k = sku \/ In k (List.map fst totals).
Proof.
  induction totals as [|[k0 t0] rest IH]; cbn [DataLoader.add_quantity].
  - cbn. intuition.
  - destruct (String.eqb sku k0) eqn:E.
    + apply String.eqb_eq in E. subst k0. cbn. intuition.
    + destruct (String.ltb sku k0); cbn [List.map fst In] in *; intuition.
Qed.

Lemma add_quantity_sorted (sku : string) (q : Q) (totals : list (string * Q)) :
  StronglySorted sku_lt (List.map fst totals) ->
  StronglySorted sku_lt (List.map fst (DataLoader.add_quantity sku q totals)).
Proof.
  induction totals as [|[k0 t0] rest IH]; cbn [DataLoader.add_quantity]; intro H.
  - cbn. repeat constructor.
  - cbn [List.map fst] in H. apply StronglySorted_inv in H. destruct H as [Hs Hall].
    destruct (String.eqb sku k0) eqn:E.
    + cbn [List.map fst]. constructor; assumption.
    + destruct (String.ltb sku k0) eqn:L.
      * cbn [List.map fst]. constructor.
        -- constructor; assumption.
        -- constructor; [exact L|].
           eapply Forall_impl; [|exact Hall].
           intros a Ha. exact (sku_lt_trans _ _ _ L Ha).
      * cbn [List.map fst]. constructor; [apply IH; exact Hs|].
        apply Forall_forall. intros a Ha.
        apply add_quantity_keys in Ha. destruct Ha as [->|Ha].
        -- apply sku_lt_total; assumption.
        -- rewrite Forall_forall in Hall. now apply Hall.
Qed.

Lemma groupby_sum_keys (orders : list DataLoader.Order) :
  StronglySorted sku_lt (List.map fst (DataLoader.groupby_sum orders))
  /\ forall k, In k (List.map fst (DataLoader.groupby_sum orders))
               <-> In k (List.map fst orders).
Proof.
  unfold DataLoader.groupby_sum.
  assert (G : forall (acc : list (string * Q)),
             StronglySorted sku_lt (List.map fst acc) ->
             let out :=
               fold_left
                 (fun totals o =>
                    DataLoader.add_quantity (fst o) (DataLoader.fillna (snd o)) totals)
                 orders acc in
             StronglySorted sku_lt (List.map fst out)
             /\ forall k, In k (List.map fst out)
                          <-> In k (List.map fst acc) \/ In k (List.map fst orders)).
  { induction orders as [|o orders IH]; intros acc Hacc; cbn [fold_left List.map].
    - split; [exact Hacc|]. intro k. cbn. intuition.
    - destruct (IH _ (add_quantity_sorted (fst o) (DataLoader.fillna (snd o)) acc Hacc))
        as [Hs Hk].
      split; [exact Hs|]. intro k. rewrite Hk, add_quantity_keys. cbn [In].
      intuition. }
  destruct (G [] (SSorted_nil _)) as [Hs Hk].
  split; [exact Hs|]. intro k. rewrite Hk. cbn. intuition.
Qed.

Lemma strongly_sorted_NoDup (l : list string) : StronglySorted sku_lt l -> NoDup l.
Proof.
  induction 1 as [|a l Hs IH Hall]; constructor; [|exact IH].
  intro Hin. rewrite Forall_forall in Hall.
  exact (sku_lt_irrefl a (Hall a Hin)).
Qed.

Lemma compute_demand_index_keys (orders : list DataLoader.Order) (lo hi : Q) :
  List.map fst (DataLoader.compute_demand_index orders lo hi)
  = List.map fst (DataLoader.groupby_sum orders).
Proof.
  unfold DataLoader.compute_demand_index.
  destruct orders as [|o orders]; [reflexivity|].
  destruct (PyNum.series_max _) as [m|]; [destruct (Py.gtb m 0)|];
    rewrite List.map_map; reflexivity.
Qed.

(** X22.  [compute_demand_index] lists every SKU of the orders exactly once,
    in ascending order, and no other; no orders give no rows. *)
Theorem compute_demand_index_skus (orders : list DataLoader.Order) (lo hi : Q) :
  StronglySorted sku_lt (List.map fst (DataLoader.compute_demand_index orders lo hi))
  /\ NoDup (List.map fst (DataLoader.compute_demand_index orders lo hi))
  /\ (forall sku,
         In sku (List.map fst (DataLoader.compute_demand_index orders lo hi))
         <-> In sku (List.map fst orders))
  /\ DataLoader.compute_demand_index [] lo hi = [].
Proof.
  rewrite compute_demand_index_keys.
  destruct (groupby_sum_keys orders) as [Hs Hk].
  repeat split; try assumption; try apply Hk.
  now apply strongly_sorted_NoDup.
Qed.

Lemma clip_bounds (x lo hi : Q) : lo <= hi -> lo <= PyNum.clip x lo hi <= hi.
Proof.
  intro H. unfold PyNum.clip, Py.gtb.
  py_case x lo; [lra|]. py_case hi x; lra.
Qed.

Lemma demand_index_in_range (orders : list DataLoader.Order) :
  Forall (fun row => (1 # 2) <= snd row <= (3 # 2))
    (DataLoader.compute_demand_index orders (1 # 2) (3 # 2)).
Proof.
  unfold DataLoader.compute_demand_index.
  destruct orders as [|o orders]; [constructor|].
  assert (One : forall demand : list (string * Q),
             Forall (fun row => (1 # 2) <= snd row <= (3 # 2))
               (List.map (fun kt : string * Q => (fst kt, 1)) demand)).
  { intro demand. apply Forall_forall. intros row Hin.
    apply in_map_iff in Hin. destruct Hin as (kt & <- & _). cbn. lra. }
  destruct (PyNum.series_max _) as [m|]; [destruct (Py.gtb m 0)|]; try apply One.
  apply Forall_forall. intros row Hin.
  apply in_map_iff in Hin. destruct Hin as (kt & <- & _). cbn [snd].
  apply clip_bounds. lra.
Qed.

(** X23.  With the default bounds every demand index [compute_demand_index]
    answers lies between 0.5 and 1.5. *)
Theorem compute_demand_index_range (orders : list DataLoader.Order) :
  Forall (fun row => (1 # 2) <= snd row <= (3 # 2))
    (DataLoader.compute_demand_index orders (1 # 2) (3 # 2)).
Proof. apply demand_index_in_range. Qed.

Lemma fold_max_spec (xs : list Q) (x : Q) :
  (fold_left Py.max xs x = x \/ In (fold_left Py.max xs x) xs)
  /\ x <= fold_left Py.max xs x
  /\ Forall (fun y => y <= fold_left Py.max xs x) xs.
Proof.
  revert x. induction xs as [|y ys IH]; intro x; cbn [fold_left].
  - repeat split; [now left|lra|constructor].
  - destruct (IH (Py.max x y)) as (Hin & Hge & Hall).
    pose proof (max_ge_l x y). pose proof (max_ge_r x y).
    repeat split.
    + destruct Hin as [Heq|Hin]; [|right; now right].
      rewrite Heq. unfold Py.max. destruct (Py.gtb y x); [right; now left|now left].
    + lra.
    + constructor; [lra|exact Hall].
Qed.

Lemma series_max_spec (xs : list Q) (m : Q) :
  PyNum.series_max xs = Some m -> In m xs /\ Forall (fun y => y <= m) xs.
Proof.
  destruct xs as [|x xs]; cbn [PyNum.series_max]; intro H; [discriminate H|].
  injection H as <-.
  destruct (fold_max_spec xs x) as (Hin & Hge & Hall).
  split; [|constructor; assumption].
  destruct Hin as [->|Hin]; [now left|now right].
Qed.

Lemma clip_mono (x y lo hi : Q) :
  lo <= hi -> x <= y -> PyNum.clip x lo hi <= PyNum.clip y lo hi.
Proof.
  intros Hb H. unfold PyNum.clip, Py.gtb.
  py_case x lo; py_case y lo; try lra;
    py_case hi y; try lra; py_case hi x; lra.
Qed.

Lemma unique_total (totals : list (string * Q)) (k : string) (a b : Q) :
  NoDup (List.map fst totals) -> In (k, a) totals -> In (k, b) totals -> a = b.
Proof.
  induction totals as [|[k0 t0] rest IH]; cbn [List.map fst In]; intros Hnd Ha Hb.
  - destruct Ha.
  - apply NoDup_cons_iff in Hnd. destruct Hnd as [Hnotin Hnd].
    destruct Ha as [Ha|Ha]; destruct Hb as [Hb|Hb].
    + congruence.
    + injection Ha as -> _. exfalso. apply Hnotin.
      apply in_map_iff. exists (k, b). auto.
    + injection Hb as -> _. exfalso. apply Hnotin.
      apply in_map_iff. exists (k, a). auto.
    + now apply IH.
Qed.

(** The rows of [compute_demand_index] are the per-SKU totals, each total
    taken through one function of the total alone. *)
Lemma demand_index_rows (orders : list DataLoader.Order) :
  exists g : Q -> Q,
    DataLoader.compute_demand_index orders (1 # 2) (3 # 2)
    = List.map (fun kt => (fst kt, g (snd kt))) (DataLoader.groupby_sum orders)
    /\ (forall t1 t2, t1 <= t2 -> g t1 <= g t2)
    /\ (Forall (fun row => snd row <= 0) (DataLoader.groupby_sum orders) ->
        forall t, g t = 1)
    /\ ((exists sku t, In (sku, t) (DataLoader.groupby_sum orders) /\ 0 < t) ->
        (exists sku t, best_seller (DataLoader.groupby_sum orders) sku t /\ 0 < t)
        /\ (forall sku t, best_seller (DataLoader.groupby_sum orders) sku t ->
                          g t == 3 # 2)
        /\ (forall t, t <= 0 -> g t == 1 # 2)).
Proof.
  unfold DataLoader.compute_demand_index.
  destruct orders as [|o orders].
  { exists (fun _ => 1). split; [reflexivity|]. split; [intros; lra|].
    split; [reflexivity|]. intros (sku & t & Hin & _). destruct Hin. }
  set (demand := DataLoader.groupby_sum (o :: orders)).
  assert (Const : exists g : Q -> Q,
             List.map (fun kt : string * Q => (fst kt, 1)) demand
             = List.map (fun kt => (fst kt, g (snd kt))) demand
             /\ (forall t1 t2, t1 <= t2 -> g t1 <= g t2)
             /\ (forall t, g t = 1)).
  { exists (fun _ => 1). split; [reflexivity|]. split; [intros; lra|reflexivity]. }
  destruct (PyNum.series_max (List.map snd demand)) as [m|] eqn:Hm.
  - destruct (series_max_spec _ _ Hm) as [Hin Hall].
    rewrite Forall_forall in Hall.
    apply in_map_iff in Hin. destruct Hin as ([k tm] & Hk & Hin). cbn in Hk. subst tm.
    assert (Hmax : forall sku' t', In (sku', t') demand -> t' <= m).
    { intros sku' t' H'. apply Hall. apply in_map_iff. exists (sku', t'). auto. }
    unfold Py.gtb. py_case 0 m.
    + exists (fun t => PyNum.clip ((1 # 2) + t / m) (1 # 2) (3 # 2)).
      split; [reflexivity|].
      assert (Hi : 0 < / m) by now apply Qinv_lt_0_compat.
      split.
      { intros t1 t2 Ht. apply clip_mono; [lra|].
        assert (t1 / m <= t2 / m).
        { unfold Qdiv. apply Qmult_le_compat_r; lra. }
        lra. }
      split.
      { intro Hneg. rewrite Forall_forall in Hneg.
        specialize (Hneg (k, m) Hin). cbn in Hneg. lra. }
      intros _. split; [|split].
      * exists k, m. split; [split; [exact Hin|exact Hmax]|exact C].
      * intros sku t [Ht Hbest].
        assert (Et : t == m).
        { apply Qle_antisym; [now apply (Hmax sku)|now apply (Hbest k)]. }
        assert (E : (1 # 2) + t / m == 3 # 2) by (rewrite Et; field; lra).
        unfold PyNum.clip, Py.gtb.
        py_case ((1 # 2) + t / m) (1 # 2); [lra|].
        py_case (3 # 2) ((1 # 2) + t / m); [lra|exact E].
      * intros t Hle.
        assert (E : t / m <= 0) by (apply Qle_shift_div_r; lra).
        unfold PyNum.clip, Py.gtb.
        py_case ((1 # 2) + t / m) (1 # 2); [reflexivity|].
        py_case (3 # 2) ((1 # 2) + t / m); lra.
    + destruct Const as (g & Hg & Hmono & Hone). exists g.
      split; [exact Hg|]. split; [exact Hmono|]. split; [intros _; exact Hone|].
      intros (sku & t & Ht & Hpos). exfalso.
      specialize (Hmax sku t Ht). lra.
  - destruct Const as (g & Hg & Hmono & Hone). exists g.
    split; [exact Hg|]. split; [exact Hmono|]. split; [intros _; exact Hone|].
    intros (sku & t & Ht & _). exfalso.
    destruct demand as [|d0 demand']; [destruct Ht|discriminate Hm].
Qed.

(** X24.  The demand index of a SKU is decided by its own total quantity:
    every row of [compute_demand_index] belongs to a SKU of the totals and
    every SKU has a row; a SKU with a larger total never gets a smaller
    index.  When some total is positive there is a best seller, every best
    seller gets 1.5, and every SKU whose total is zero or negative gets
    0.5; when no total is positive every SKU gets 1.0. *)
Theorem compute_demand_index_top_seller (orders : list DataLoader.Order) :
  let totals := DataLoader.groupby_sum orders in
  let out := DataLoader.compute_demand_index orders (1 # 2) (3 # 2) in
  (forall sku, (exists idx, In (sku, idx) out) <-> (exists t, In (sku, t) totals))
  /\ (forall sku1 t1 i1 sku2 t2 i2,
         In (sku1, t1) totals -> In (sku2, t2) totals ->
         In (sku1, i1) out -> In (sku2, i2) out ->
         t1 <= t2 -> i1 <= i2)
  /\ ((exists sku t, In (sku, t) totals /\ 0 < t) ->
      (exists sku t, best_seller totals sku t /\ 0 < t)
      /\ (forall sku t idx,
             best_seller totals sku t -> In (sku, idx) out -> idx == 3 # 2)
      /\ (forall sku t idx,
             In (sku, t) totals -> t <= 0 -> In (sku, idx) out -> idx == 1 # 2))
  /\ (Forall (fun row => snd row <= 0) totals ->
      Forall (fun row => snd row = 1) out).
Proof.
  intros totals out.
  destruct (demand_index_rows orders) as (g & Hout & Hmono & Hone & Hpos).
  fold totals in Hout, Hone, Hpos. fold out in Hout.
  assert (Hnd : NoDup (List.map fst totals)).
  { apply strongly_sorted_NoDup. apply (groupby_sum_keys orders). }
  assert (Row : forall sku idx,
             In (sku, idx) out <-> exists t, In (sku, t) totals /\ idx = g t).
  { intros sku idx. rewrite Hout, in_map_iff. split.
    - intros ([k t] & E & Hin). cbn in E. injection E as <- <-. now exists t.
    - intros (t & Hin & ->). now exists (sku, t). }
  assert (Own : forall sku t idx,
             In (sku, t) totals -> In (sku, idx) out -> idx = g t).
  { intros sku t idx Ht Hi. apply Row in Hi. destruct Hi as (t' & Ht' & ->).
    now rewrite (unique_total totals sku t t' Hnd Ht Ht'). }
  split; [|split; [|split]].
  - intro sku. split.
    + intros (idx & Hi). apply Row in Hi. destruct Hi as (t & Ht & _). now exists t.
    + intros (t & Ht). exists (g t). apply Row. now exists t.
  - intros sku1 t1 i1 sku2 t2 i2 H1 H2 Hi1 Hi2 Hle.
    rewrite (Own _ _ _ H1 Hi1), (Own _ _ _ H2 Hi2). now apply Hmono.
  - intro Hex. destruct (Hpos Hex) as (Hbest & Htop & Hlow).
    split; [exact Hbest|]. split.
    + intros sku t idx Hb Hi. rewrite (Own _ _ _ (proj1 Hb) Hi). now apply (Htop sku).
    + intros sku t idx Ht Hle Hi. rewrite (Own _ _ _ Ht Hi). now apply Hlow.
  - intro Hneg. apply Forall_forall. intros [sku idx] Hi. cbn [snd].
    apply Row in Hi. destruct Hi as (t & _ & ->). now apply Hone.
Qed.

(** X25.  A demand index that [compute_demand_index] answers with its
    default bounds moves a price that is not negative by at most −5% and
    +7.5% in the demand stage of the default rules. *)
Theorem loaded_demand_index_adjustment (orders : list DataLoader.Order)
    (sku : string) (d price : Q) :
  In (sku, d) (DataLoader.compute_demand_index orders (1 # 2) (3 # 2)) ->
  0 <= price ->
  price * (95 # 100) <= apply_demand_adjustment price (Some d) DEFAULT_RULES
  <= price * (1075 # 1000).
Proof.
  intros Hin Hp.
  pose proof (demand_index_in_range orders) as Hr.
  rewrite Forall_forall in Hr. specialize (Hr _ Hin). cbn [snd] in Hr.
  rewrite apply_demand_adjustment_multiplies.
  apply scale_le; [exact Hp|].
  destruct (demand_multiplier_bounds d) as (_ & _ & _ & _ & _ & H). exact (H Hr).
Qed.

Lemma loaded_demand_index_adjustment_witness :
  In ("A"%string, 7 # 6)
    (DataLoader.compute_demand_index
       [("B"%string, Some 3); ("A"%string, Some 1); ("B"%string, None);
        ("C"%string, Some (- 2)); ("A"%string, Some 1)] (1 # 2) (3 # 2))
  /\ 0 <= 10
  /\ 10 * (95 # 100) <= apply_demand_adjustment 10 (Some (7 # 6)) DEFAULT_RULES
     <= 10 * (1075 # 1000).
Proof.
  assert (Hin : In ("A"%string, 7 # 6)
                  (DataLoader.compute_demand_index
                     [("B"%string, Some 3); ("A"%string, Some 1); ("B"%string, None);
                      ("C"%string, Some (- 2)); ("A"%string, Some 1)] (1 # 2) (3 # 2)))
    by (vm_compute; left; reflexivity).
  assert (Hp : 0 <= 10) by discriminate.
  split; [exact Hin|]. split; [exact Hp|].
  exact (loaded_demand_index_adjustment _ "A" (7 # 6) 10 Hin Hp).
Defined.
